(** * just-prompt: provider adapters, model-option parser and prefix registry

    A shallow embedding of

      - [src/just_prompt/atoms/shared/data_types.py]
      - [src/just_prompt/atoms/llm_providers/anthropic.py]
      - [src/just_prompt/atoms/llm_providers/openai.py]
      - [src/just_prompt/atoms/llm_providers/gemini.py]
      - [src/list_models.py]

    Python [str] values are modelled as [string] (ASCII text), Python [int]
    values as [Z], dictionaries as [gmap], and the vendor SDKs as an oracle
    that answers the n-th call made through an adapter.  The length limit
    of [int] on digit strings is modelled by [Py.int_call] and by
    [AnthropicProvider._parse_model_with_thinking_tokens_call]; the
    definitions of [generate] take the value the parser returns and so
    describe the runs in which it returns.  The interpreter's recursion
    depth is outside the model. *)

From Stdlib Require Import ZArith QArith Ascii String List Permutation.
From Stdlib Require DecimalString DecimalPos DecimalN.
From stdpp Require Import base decidable option list gmap strings sorting.

Open Scope string_scope.
Open Scope Z_scope.

(** ** Python built-ins used by the sources *)

Module Py.

(** Line feed, the only character that [.] does not match and that [$]
    tolerates at the very end of the subject. *)
Definition LF : ascii := "010"%char.

Definition is_upper (c : ascii) : bool :=
  ((65 <=? nat_of_ascii c) && (nat_of_ascii c <=? 90))%nat.

Definition lower_char (c : ascii) : ascii :=
  if is_upper c then ascii_of_nat (nat_of_ascii c + 32) else c.

(** [s.lower()] *)
Fixpoint lower (s : string) : string :=
  match s with
  | EmptyString => EmptyString
  | String c t => String (lower_char c) (lower t)
  end.

(** [s.startswith(p)] *)
Definition startswith (s p : string) : bool := String.prefix p s.

(** [needle in hay] on strings *)
Fixpoint contains (needle hay : string) : bool :=
  String.prefix needle hay
  || match hay with
     | EmptyString => false
     | String _ t => contains needle t
     end.

(** [\d] on ASCII text *)
Definition is_digit (c : ascii) : bool :=
  ((48 <=? nat_of_ascii c) && (nat_of_ascii c <=? 57))%nat.

Definition digit_value (c : ascii) : Z := Z.of_nat (nat_of_ascii c) - 48.

Fixpoint int_acc (acc : Z) (s : string) : Z :=
  match s with
  | EmptyString => acc
  | String c t => int_acc (10 * acc + digit_value c) t
  end.

(** The value of [int(s)] for a non-empty string of decimal digits,
    whenever the call returns; the call itself is [int_call] below. *)
Definition int (s : string) : Z := int_acc 0 s.

(** Truth value of a string: non-empty. *)
Definition truthy (s : string) : bool :=
  match s with EmptyString => false | String _ _ => true end.

(** Exception classes the adapters distinguish.  [RateLimitError] and
    [AuthenticationError] are subclasses of the vendor's [APIError] in
    both the anthropic and the openai SDK. *)
Inductive ExcClass : Type :=
| RateLimitError
| AuthenticationError
| APIError
| ValueError
| IndexError
| AttributeError
| Exception.

Record PyExc : Type := mkExc { exc_class : ExcClass; str : string }.

Definition isinstance_RateLimitError (e : PyExc) : bool :=
  match exc_class e with RateLimitError => true | _ => false end.

Definition isinstance_AuthenticationError (e : PyExc) : bool :=
  match exc_class e with AuthenticationError => true | _ => false end.

Definition isinstance_APIError (e : PyExc) : bool :=
  match exc_class e with
  | RateLimitError | AuthenticationError | APIError => true
  | _ => false
  end.

(** Result of running a coroutine of the adapters with a bounded number
    of nested [generate] calls: a value, an exception, or still running
    when the bound was reached. *)
Inductive Outcome (A : Type) : Type :=
| Returned (a : A)
| Raised (e : PyExc)
| Unfinished.

Arguments Returned {A} a.
Arguments Raised {A} e.
Arguments Unfinished {A}.

(** [str(n)] for a natural number. *)
Definition str_of_nat (n : nat) : string :=
  DecimalString.NilEmpty.string_of_uint (Nat.to_uint n).

(** [sys.get_int_max_str_digits()], as the interpreter starts. *)
Definition int_max_str_digits : nat := 4300.

(** [int(s)] on a string of decimal digits, as the interpreter runs it:
    a string with more digits than the limit is refused. *)
Definition int_call (s : string) : PyExc + Z :=
  if (String.length s <=? int_max_str_digits)%nat then inr (int s)
  else inl (mkExc ValueError
              ("Exceeds the limit (" +:+ str_of_nat int_max_str_digits
               +:+ " digits) for integer string conversion: value has "
               +:+ str_of_nat (String.length s)
               +:+ " digits; use sys.set_int_max_str_digits() to increase the limit")).

(** An attribute of a vendor object: missing ([hasattr] is false), bound
    to [None], or bound to a value. *)
Inductive Attr (A : Type) : Type :=
| Absent
| BoundNone
| Bound (a : A).

Arguments Absent {A}.
Arguments BoundNone {A}.
Arguments Bound {A} a.

(** What reading [field] of [None] raises. *)
Definition none_has_no_attribute (field : string) : PyExc :=
  mkExc AttributeError
    ("'NoneType' object has no attribute '" +:+ field +:+ "'").

(** [s.split(sep)] for a one-character separator: never an empty list. *)
Fixpoint str_split (sep : ascii) (s : string) : list string :=
  match s with
  | EmptyString => [EmptyString]
  | String c t =>
      if Ascii.eqb c sep then EmptyString :: str_split sep t
      else match str_split sep t with
           | h :: r => String c h :: r
           | [] => [String c EmptyString]
           end
  end.

(** [sep.join(parts)] for a one-character separator. *)
Fixpoint str_join (sep : ascii) (parts : list string) : string :=
  match parts with
  | [] => EmptyString
  | [x] => x
  | x :: rest => x +:+ String sep (str_join sep rest)
  end.

(** [os.getenv(name)] on [os.environ]. *)
Definition os_getenv (environ : gmap string string) (name : string)
  : option string :=
  environ !! name.

End Py.

Import Py.

(** ** The pattern [^(.*?):(\d+)([km])?$] under [re.match] *)

Module Re.

(** [(\d+)], greedy: the longest run of digits and what follows it.
    Giving digits back never helps: the next pattern item would then
    face a digit, which is neither [k], [m], a line feed nor the end. *)
Fixpoint span_digits (s : string) : string * string :=
  match s with
  | EmptyString => (EmptyString, EmptyString)
  | String c t =>
      if is_digit c
      then let (d, r) := span_digits t in (String c d, r)
      else (EmptyString, s)
  end.

(** [$] without [re.MULTILINE]: at the end of the subject, or just
    before a line feed that ends the subject. *)
Definition at_end (s : string) : bool :=
  match s with
  | EmptyString => true
  | String c EmptyString => Ascii.eqb c LF
  | _ => false
  end.

Definition is_unit (c : ascii) : bool :=
  Ascii.eqb c "k"%char || Ascii.eqb c "m"%char.

(** [([km])?$]: the group is tried first, then skipped. *)
Definition match_unit_end (s : string) : option (option ascii) :=
  match s with
  | String c t =>
      if is_unit c && at_end t then Some (Some c)
      else if at_end s then Some None
      else None
  | EmptyString => Some None
  end.

(** [(\d+)([km])?$] *)
Definition match_tail (s : string) : option (string * option ascii) :=
  let (d, r) := span_digits s in
  match d with
  | EmptyString => None
  | String _ _ =>
      match match_unit_end r with
      | Some u => Some (d, u)
      | None => None
      end
  end.

(** [^(.*?):(\d+)([km])?$], lazy first group: at each position the rest
    of the pattern is tried before the group takes one more character,
    and the group cannot take a line feed.  The result holds groups 1,
    2 and 3. *)
Fixpoint re_match (s : string) : option (string * string * option ascii) :=
  match s with
  | EmptyString => None
  | String c t =>
      match (if Ascii.eqb c ":"%char then match_tail t else None) with
      | Some (d, u) => Some (EmptyString, d, u)
      | None =>
          if Ascii.eqb c LF then None
          else match re_match t with
               | Some (g1, d, u) => Some (String c g1, d, u)
               | None => None
               end
      end
  end.

End Re.

(** ** data_types.py *)

Inductive Provider : Type :=
| OPENAI | ANTHROPIC | GEMINI | GROQ | DEEPSEEK | OLLAMA.

(** The [str] value of each member of the enumeration. *)
Definition Provider_value (p : Provider) : string :=
  match p with
  | OPENAI => "openai"
  | ANTHROPIC => "anthropic"
  | GEMINI => "gemini"
  | GROQ => "groq"
  | DEEPSEEK => "deepseek"
  | OLLAMA => "ollama"
  end.

Definition prefix_map : gmap string Provider :=
  <["o" := OPENAI]> (<["openai" := OPENAI]> (
  <["a" := ANTHROPIC]> (<["anthropic" := ANTHROPIC]> (
  <["g" := GEMINI]> (<["gemini" := GEMINI]> (
  <["q" := GROQ]> (<["groq" := GROQ]> (
  <["d" := DEEPSEEK]> (<["deepseek" := DEEPSEEK]> (
  <["l" := OLLAMA]> (<["ollama" := OLLAMA]> ∅))))))))))).

(** [Provider.from_prefix] *)
Definition from_prefix (prefix : string) : Outcome Provider :=
  match prefix_map !! lower prefix with
  | None => Raised (mkExc ValueError ("Unknown provider prefix: " +:+ prefix))
  | Some p => Returned p
  end.

Record PromptResponse : Type := mkPromptResponse {
  model : string;
  content : string;
  tokens : option Z
}.

(** ** The world an adapter runs in

    [calls] logs every request handed to the vendor SDK, oldest first;
    [sleeps] logs every argument of [time.sleep], oldest first. *)

Record World (Req : Type) : Type := mkWorld {
  calls : list Req;
  sleeps : list nat
}.

Arguments mkWorld {Req} calls sleeps.
Arguments calls {Req} w.
Arguments sleeps {Req} w.

Definition record_call {Req} (r : Req) (w : World Req) : World Req :=
  mkWorld (calls w ++ [r]) (sleeps w).

(** [time.sleep(seconds)] *)
Definition time_sleep {Req} (seconds : nat) (w : World Req) : World Req :=
  mkWorld (calls w) (sleeps w ++ [seconds]).

(** Truth value of an optional integer: present and non-zero. *)
Definition truthy_int (o : option Z) : bool :=
  match o with Some n => negb (n =? 0) | None => false end.

(** ** anthropic.py *)

Module AnthropicProvider.

(** Keyword arguments of [client.messages.create]. *)
Record MessageParams : Type := mkParams {
  req_model : string;
  req_max_tokens : Z;
  req_messages : list (string * string);
  req_thinking_tokens : option Z
}.

Record Usage : Type := mkUsage { input_tokens : Z; output_tokens : Z }.

(** The vendor's answer: the text of each content block, and the usage
    attribute. *)
Record Message : Type := mkMessage {
  msg_content : list string;
  msg_usage : Attr Usage
}.

(** The token count [generate] computes from an answer. *)
Definition message_tokens (response : Message) : PyExc + option Z :=
  match msg_usage response with
  | Absent => inr None
  | BoundNone => inl (none_has_no_attribute "input_tokens")
  | Bound u => inr (Some (input_tokens u + output_tokens u))
  end.

(** The adapter object: its credential and its SDK client.  The client
    answers a request given the number of requests made before it. *)
Record t : Type := mk {
  api_key : string;
  client_messages_create : nat -> MessageParams -> PyExc + Message
}.

Definition list_models (self : t) (w : World MessageParams)
  : Outcome (list string) * World MessageParams :=
  (Returned [ "claude-3-opus-20240229";
              "claude-3-sonnet-20240229";
              "claude-3-haiku-20240307";
              "claude-3-7-sonnet-20250219";
              "claude-2.1";
              "claude-2.0";
              "claude-instant-1.2" ], w).

(** The value [_parse_model_with_thinking_tokens] returns, whenever it
    returns; the call, which can raise, is
    [_parse_model_with_thinking_tokens_call] below. *)
Definition _parse_model_with_thinking_tokens (model : string)
  : string * option Z :=
  match Re.re_match model with
  | None => (model, None)
  | Some (base_model, digits, unit) =>
      let token_value := int digits in
      let token_value :=
        match unit with
        | Some "k"%char => token_value * 1024
        | Some "m"%char => token_value * (1024 * 1024)
        | _ => token_value
        end in
      (base_model, Some token_value)
  end.

Section handle_error.
Context {A : Type}.
(** [self.generate], as seen from the handler. *)
Variable self_generate :
  string -> string -> World MessageParams -> Outcome A * World MessageParams.

Definition _handle_error (error : PyExc) (retry_count : nat)
    (prompt model : option string) (w : World MessageParams)
  : Outcome A * World MessageParams :=
  let max_retries := 3%nat in
  if isinstance_RateLimitError error && (retry_count <? max_retries)%nat then
    let wait_time := (2 ^ retry_count)%nat in
    let w := time_sleep wait_time w in
    match prompt, model with
    | Some p, Some m =>
        if truthy p && truthy m then self_generate p m w
        else (Raised error, w)
    | _, _ => (Raised error, w)
    end
  else if isinstance_AuthenticationError error then
    (Raised (mkExc ValueError
               ("Anthropic API key is invalid: " +:+ str error)), w)
  else if isinstance_APIError error then
    let api_error :=
      mkExc ValueError ("Anthropic API error: " +:+ str error) in
    if (retry_count <? max_retries)%nat then
      let w := time_sleep 1 w in
      match prompt, model with
      | Some p, Some m =>
          if truthy p && truthy m then self_generate p m w
          else (Raised api_error, w)
      | _, _ => (Raised api_error, w)
      end
    else (Raised api_error, w)
  else
    (Raised (mkExc ValueError
               ("Error occurred when calling Anthropic API: "
                +:+ str error)), w).
End handle_error.

Fixpoint generate (self : t) (fuel : nat) (prompt model : string)
    (w : World MessageParams)
  : Outcome PromptResponse * World MessageParams :=
  match fuel with
  | O => (Unfinished, w)
  | S fuel' =>
      let '(base_model, thinking_tokens) :=
        _parse_model_with_thinking_tokens model in
      let message_params :=
        mkParams base_model 1024 [("user", prompt)]
                 (if truthy_int thinking_tokens then thinking_tokens
                  else None) in
      let on_error e w :=
        _handle_error (generate self fuel') e 0 (Some prompt) (Some model) w in
      let w1 := record_call message_params w in
      match client_messages_create self (length (calls w)) message_params with
      | inl e => on_error e w1
      | inr response =>
          match message_tokens response with
          | inl e => on_error e w1
          | inr tokens =>
              match msg_content response with
              | block :: _ =>
                  (Returned (mkPromptResponse model block tokens), w1)
              | [] =>
                  on_error (mkExc IndexError "list index out of range") w1
              end
          end
      end
  end.

(** [__init__]: [Anthropic] is the SDK's client constructor, from the key
    to the behaviour of [client.messages.create]. *)
Definition __init__ (environ : gmap string string)
    (Anthropic : string -> nat -> MessageParams -> PyExc + Message)
  : Outcome t :=
  match os_getenv environ "ANTHROPIC_API_KEY" with
  | Some key =>
      if truthy key then Returned (mk key (Anthropic key))
      else Raised (mkExc ValueError
                     "ANTHROPIC_API_KEY environment variable not set")
  | None =>
      Raised (mkExc ValueError "ANTHROPIC_API_KEY environment variable not set")
  end.

(** [_parse_model_with_thinking_tokens] as the interpreter runs it: the
    call of [int] on the digit group can raise. *)
Definition _parse_model_with_thinking_tokens_call (model : string)
  : PyExc + (string * option Z) :=
  match Re.re_match model with
  | None => inr (model, None)
  | Some (base_model, digits, unit) =>
      match int_call digits with
      | inl e => inl e
      | inr token_value =>
          let token_value :=
            match unit with
            | Some "k"%char => token_value * 1024
            | Some "m"%char => token_value * (1024 * 1024)
            | _ => token_value
            end in
          inr (base_model, Some token_value)
      end
  end.

End AnthropicProvider.

(** ** openai.py *)

Module OpenAIProvider.

Inductive Request : Type :=
| ModelsList
| ChatCompletionsCreate (model : string) (messages : list (string * string))
    (temperature : Q) (max_tokens : Z)
| CompletionsCreate (model prompt : string) (temperature : Q) (max_tokens : Z).

(** A chat or text completion: the text of each choice, and the usage
    attribute, with its [total_tokens] when it is bound to a usage. *)
Record Completion : Type := mkCompletion {
  choices : list string;
  usage_total_tokens : Attr Z
}.

(** [response.usage.total_tokens if hasattr(response, 'usage') else None] *)
Definition completion_tokens (response : Completion) : PyExc + option Z :=
  match usage_total_tokens response with
  | Absent => inr None
  | BoundNone => inl (none_has_no_attribute "total_tokens")
  | Bound n => inr (Some n)
  end.

Record t : Type := mk {
  api_key : string;
  (** ids of [client.models.list().data] *)
  client_models_list : nat -> PyExc + list string;
  client_chat_completions_create : nat -> Request -> PyExc + Completion;
  client_completions_create : nat -> Request -> PyExc + Completion
}.

Section handle_error.
Context {A : Type}.
Variable self_generate :
  string -> string -> World Request -> Outcome A * World Request.

Definition _handle_error (error : PyExc) (retry_count : nat)
    (prompt model : option string) (w : World Request)
  : Outcome A * World Request :=
  let max_retries := 3%nat in
  if isinstance_RateLimitError error && (retry_count <? max_retries)%nat then
    let wait_time := (2 ^ retry_count)%nat in
    let w := time_sleep wait_time w in
    match prompt, model with
    | Some p, Some m =>
        if truthy p && truthy m then self_generate p m w
        else (Raised error, w)
    | _, _ => (Raised error, w)
    end
  else if isinstance_AuthenticationError error then
    (Raised (mkExc ValueError
               ("OpenAI API key is invalid: " +:+ str error)), w)
  else if isinstance_APIError error then
    let api_error :=
      mkExc ValueError ("OpenAI API error: " +:+ str error) in
    if (retry_count <? max_retries)%nat then
      let w := time_sleep 1 w in
      match prompt, model with
      | Some p, Some m =>
          if truthy p && truthy m then self_generate p m w
          else (Raised api_error, w)
      | _, _ => (Raised api_error, w)
      end
    else (Raised api_error, w)
  else
    (Raised (mkExc ValueError
               ("Error occurred when calling OpenAI API: "
                +:+ str error)), w).
End handle_error.

(** [list_models] passes no retry context to the handler, which
    therefore never enters [self.generate]. *)
Definition list_models (self : t) (w : World Request)
  : Outcome (list string) * World Request :=
  let w1 := record_call ModelsList w in
  match client_models_list self (length (calls w)) with
  | inr data =>
      let relevant_models :=
        filter (fun id => startswith id "gpt-" || startswith id "text-")
               data in
      (Returned (merge_sort String.le relevant_models), w1)
  | inl e =>
      _handle_error (fun _ _ w' => (Unfinished, w')) e 0 None None w1
  end.

Fixpoint generate (self : t) (fuel : nat) (prompt model : string)
    (w : World Request) : Outcome PromptResponse * World Request :=
  match fuel with
  | O => (Unfinished, w)
  | S fuel' =>
      let on_error e w :=
        _handle_error (generate self fuel') e 0 (Some prompt) (Some model) w in
      let finish (call : PyExc + Completion) w1 :=
        match call with
        | inl e => on_error e w1
        | inr response =>
            match completion_tokens response with
            | inl e => on_error e w1
            | inr tokens =>
                match choices response with
                | text :: _ =>
                    (Returned (mkPromptResponse model text tokens), w1)
                | [] =>
                    on_error (mkExc IndexError "list index out of range") w1
                end
            end
        end in
      if startswith model "gpt-" then
        let request :=
          ChatCompletionsCreate model [("user", prompt)] (7 # 10)%Q 1024 in
        finish (client_chat_completions_create self (length (calls w)) request)
               (record_call request w)
      else
        let request := CompletionsCreate model prompt (7 # 10)%Q 1024 in
        finish (client_completions_create self (length (calls w)) request)
               (record_call request w)
  end.

(** [__init__]: the three arguments are the behaviour of the client that
    [OpenAI(api_key=key)] builds. *)
Definition __init__ (environ : gmap string string)
    (models_list : string -> nat -> PyExc + list string)
    (chat_completions_create completions_create :
       string -> nat -> Request -> PyExc + Completion)
  : Outcome t :=
  match os_getenv environ "OPENAI_API_KEY" with
  | Some key =>
      if truthy key
      then Returned (mk key (models_list key) (chat_completions_create key)
                        (completions_create key))
      else Raised (mkExc ValueError "OPENAI_API_KEY environment variable not set")
  | None =>
      Raised (mkExc ValueError "OPENAI_API_KEY environment variable not set")
  end.

End OpenAIProvider.

(** ** gemini.py *)

Module GeminiProvider.

Record GenerationConfig : Type := mkConfig {
  temperature : Q;
  top_p : Q;
  top_k : Z;
  max_output_tokens : Z
}.

(** [genai.GenerativeModel(model_name, generation_config)
      .generate_content(prompt)] *)
Record Request : Type := mkRequest {
  req_model_name : string;
  req_generation_config : GenerationConfig;
  req_prompt : string
}.

(** A candidate: the text of each part of its content, when it has a
    content. *)
Record Candidate : Type := mkCandidate {
  cand_content : option (list string)
}.

(** The [text] attribute of an answer: missing ([hasattr] is false); a
    string; [None], which [PromptResponse] refuses with the validation
    error [rejected]; or an attribute whose reading raises. *)
Inductive TextAttr : Type :=
| TextAbsent
| TextStr (text : string)
| TextNone (rejected : PyExc)
| TextRaises (e : PyExc).

(** An answer: its [text] attribute, its candidates when it has any, its
    [usage_metadata] attribute with the total token count when it is
    bound, and its printed form. *)
Record Response : Type := mkResponse {
  resp_text : TextAttr;
  resp_candidates : option (list Candidate);
  resp_usage_total_token_count : Attr Z;
  resp_str : string
}.

(** The token count [generate] computes from an answer. *)
Definition response_tokens (response : Response) : PyExc + option Z :=
  match resp_usage_total_token_count response with
  | Absent => inr None
  | BoundNone => inl (none_has_no_attribute "total_token_count")
  | Bound n => inr (Some n)
  end.

Record t : Type := mk {
  api_key : string;
  generate_content : nat -> Request -> PyExc + Response
}.

Definition _extract_text_from_response (response : Response)
  : PyExc + string :=
  match resp_candidates response with
  | Some (candidate :: _) =>
      match cand_content candidate with
      | Some (part :: _) => inr part
      | Some [] => inl (mkExc IndexError "list index out of range")
      | None => inr (resp_str response)
      end
  | _ => inr (resp_str response)
  end.

Section handle_error.
Context {A : Type}.
Variable self_generate :
  string -> string -> World Request -> Outcome A * World Request.

Definition _handle_error (error : PyExc) (retry_count : nat)
    (prompt model : option string) (w : World Request)
  : Outcome A * World Request :=
  let max_retries := 3%nat in
  if contains "quota" (lower (str error))
     && (retry_count <? max_retries)%nat then
    let wait_time := (2 ^ retry_count)%nat in
    let w := time_sleep wait_time w in
    match prompt, model with
    | Some p, Some m =>
        if truthy p && truthy m then self_generate p m w
        else (Raised error, w)
    | _, _ => (Raised error, w)
    end
  else if contains "authentication" (lower (str error))
          || contains "api key" (lower (str error)) then
    (Raised (mkExc ValueError
               ("Google Gemini API key is invalid: " +:+ str error)), w)
  else
    let other_error :=
      mkExc ValueError
        ("Error occurred when calling Google Gemini API: " +:+ str error) in
    match prompt, model with
    | Some p, Some m =>
        if (retry_count <? max_retries)%nat && truthy p && truthy m then
          let w := time_sleep 1 w in
          self_generate p m w
        else (Raised other_error, w)
    | _, _ => (Raised other_error, w)
    end.
End handle_error.

Fixpoint generate (self : t) (fuel : nat) (prompt model : string)
    (w : World Request) : Outcome PromptResponse * World Request :=
  match fuel with
  | O => (Unfinished, w)
  | S fuel' =>
      let on_error e w :=
        _handle_error (generate self fuel') e 0 (Some prompt) (Some model) w in
      let generation_config := mkConfig (7 # 10)%Q (95 # 100)%Q 40 2048 in
      let request := mkRequest model generation_config prompt in
      let w1 := record_call request w in
      match generate_content self (length (calls w)) request with
      | inl e => on_error e w1
      | inr response =>
          match response_tokens response with
          | inl e => on_error e w1
          | inr tokens =>
              match (match resp_text response with
                     | TextStr text => inr text
                     | TextAbsent => _extract_text_from_response response
                     | TextNone rejected => inl rejected
                     | TextRaises e => inl e
                     end) with
              | inr content =>
                  (Returned (mkPromptResponse model content tokens), w1)
              | inl e => on_error e w1
              end
          end
      end
  end.

(** [__init__]: [configure] is [genai.configure], from the key to the
    behaviour of [generate_content] afterwards. *)
Definition __init__ (environ : gmap string string)
    (configure : string -> nat -> Request -> PyExc + Response)
  : Outcome t :=
  match os_getenv environ "GEMINI_API_KEY" with
  | Some key =>
      if truthy key then Returned (mk key (configure key))
      else Raised (mkExc ValueError "GEMINI_API_KEY environment variable not set")
  | None =>
      Raised (mkExc ValueError "GEMINI_API_KEY environment variable not set")
  end.

(** An entry of the vendor's catalogue. *)
Record Model : Type := mkModel {
  name : string;
  supported_generation_methods : list string
}.

(** [list_models]: [genai_list_models] is what the module-level call
    [genai.list_models()] yields this time.  No retry context goes to the
    handler. *)
Definition list_models (genai_list_models : PyExc + list Model) (self : t)
    (w : World Request) : Outcome (list string) * World Request :=
  match genai_list_models with
  | inr models =>
      let gemini_models :=
        map (fun m => List.last (str_split "/" (name m)) EmptyString)
            (List.filter
               (fun m => existsb (String.eqb "generateContent")
                                 (supported_generation_methods m))
               models) in
      (Returned gemini_models, w)
  | inl e => _handle_error (fun _ _ w' => (Unfinished, w')) e 0 None None w
  end.

End GeminiProvider.

(** ** list_models.py *)

Module ListModelsScript.

(** What the script has printed, oldest line first. *)
Record Console : Type := mkConsole {
  stdout : list string;
  stderr : list string
}.

(** What [parse_args()] does with the command line.  It returns the
    namespace, whose [provider] is [None] when the positional argument is
    left out; or [argparse] prints its help, or its usage and error, and
    leaves with [SystemExit] ([-h], an unknown option, a second
    positional argument). *)
Inductive ParseArgs : Type :=
| Namespace (provider : option string)
| ParserExit (status : Z) (printed : Console).

(** How [main] ends: as a call does, or with [SystemExit]. *)
Inductive Ending : Type :=
| Ends (outcome : Outcome Z)
| SystemExit (status : Z).

(** [main], given what its call of [parse_args()] does: how it ends, and
    the console. *)
Definition main (parse_args : ParseArgs) : Ending * Console :=
  let all_providers :=
    (Ends (Returned 0), mkConsole ["Listing models for all providers:"] []) in
  match parse_args with
  | ParserExit status printed => (SystemExit status, printed)
  | Namespace (Some provider_arg) =>
      if truthy provider_arg then
        match from_prefix provider_arg with
        | Returned provider =>
            (Ends (Returned 0),
             mkConsole ["Listing models for " +:+ Provider_value provider +:+ ":"]
                       [])
        | Raised e =>
            match exc_class e with
            | ValueError =>
                (Ends (Returned 1), mkConsole [] ["Error: " +:+ str e])
            | _ => (Ends (Raised e), mkConsole [] [])
            end
        | Unfinished => (Ends Unfinished, mkConsole [] [])
        end
      else all_providers
  | Namespace None => all_providers
  end.

End ListModelsScript.

(** ** Vocabulary of the statements *)

(** Every character of [s] satisfies [p]. *)
Fixpoint all_chars (p : ascii -> bool) (s : string) : bool :=
  match s with
  | EmptyString => true
  | String c t => p c && all_chars p t
  end.

Definition not_LF (c : ascii) : bool := negb (Ascii.eqb c LF).
Definition not_colon (c : ascii) : bool := negb (Ascii.eqb c ":"%char).

(** A non-empty run of decimal digits. *)
Definition digits (d : string) : Prop := d <> "" /\ all_chars is_digit d = true.

(** The text of the optional unit group. *)
Definition unit_text (u : option ascii) : string :=
  match u with Some c => String c "" | None => "" end.

Definition unit_group (u : option ascii) : Prop :=
  u = None \/ u = Some "k"%char \/ u = Some "m"%char.

(** Where [$] may stand: at the end, or before one final line feed. *)
Definition line_end (nl : string) : Prop := nl = "" \/ nl = String LF "".

(** The subjects the pattern [^(.*?):(\d+)([km])?$] accepts, with the
    text of its three groups. *)
Inductive Matches : string -> string -> string -> option ascii -> Prop :=
| Matches_intro g1 g2 g3 nl :
    all_chars not_LF g1 = true -> digits g2 -> unit_group g3 -> line_end nl ->
    Matches (g1 +:+ ":" +:+ g2 +:+ unit_text g3 +:+ nl) g1 g2 g3.

(** The option suffix as the specification words it: digits and an
    optional lower-case unit, ending the string. *)
Definition option_suffix (x : string) : Prop :=
  exists d u, digits d /\ unit_group u /\ x = d +:+ unit_text u.

(** The option suffix as the pattern reads it: [$] also accepts one final
    line feed. *)
Definition option_suffix_nl (x : string) : Prop :=
  exists d u nl, digits d /\ unit_group u /\ line_end nl
                 /\ x = d +:+ unit_text u +:+ nl.

(** The documented prefix table. *)
Definition documented_prefixes : list (string * Provider) :=
  [ ("o", OPENAI); ("openai", OPENAI);
    ("a", ANTHROPIC); ("anthropic", ANTHROPIC);
    ("g", GEMINI); ("gemini", GEMINI);
    ("q", GROQ); ("groq", GROQ);
    ("d", DEEPSEEK); ("deepseek", DEEPSEEK);
    ("l", OLLAMA); ("ollama", OLLAMA) ].

(** The error kinds of the specification, as the adapters raise them:
    all are [ValueError]s told apart by their message. *)
Definition AuthError (vendor : string) (cause : PyExc) : PyExc :=
  mkExc ValueError (vendor +:+ " API key is invalid: " +:+ str cause).

(** [ProviderError] for a vendor-reported API error whose retries ended. *)
Definition ProviderError_api (vendor : string) (cause : PyExc) : PyExc :=
  mkExc ValueError (vendor +:+ " API error: " +:+ str cause).

(** [ProviderError] for any other failure. *)
Definition ProviderError_other (vendor : string) (cause : PyExc) : PyExc :=
  mkExc ValueError
    ("Error occurred when calling " +:+ vendor +:+ " API: " +:+ str cause).

(** The authentication signal of the Gemini adapter: a textual match. *)
Definition gemini_auth_text (e : PyExc) : bool :=
  contains "authentication" (lower (str e)) || contains "api key" (lower (str e)).

(** The quota signal of the Gemini adapter. *)
Definition gemini_quota_text (e : PyExc) : bool :=
  contains "quota" (lower (str e)).

(** A fresh world: nothing called, nothing slept. *)
Definition w0 {Req} : World Req := mkWorld [] [].

(** *** Vendor stubs

    A scripted client answers its n-th call with the n-th entry of
    [script], and with [rest] once the script is used up. *)

Definition anthropic_scripted
    (script : list (PyExc + AnthropicProvider.Message))
    (rest : PyExc + AnthropicProvider.Message) : AnthropicProvider.t :=
  AnthropicProvider.mk "test_key" (fun n _ => nth n script rest).

Definition openai_scripted
    (script : list (PyExc + OpenAIProvider.Completion))
    (rest : PyExc + OpenAIProvider.Completion) : OpenAIProvider.t :=
  OpenAIProvider.mk "test_key"
    (fun _ => inr ["gpt-4"; "gpt-3.5-turbo"; "text-davinci-003"; "davinci";
                   "embedding-ada"])
    (fun n _ => nth n script rest) (fun n _ => nth n script rest).

Definition gemini_scripted
    (script : list (PyExc + GeminiProvider.Response))
    (rest : PyExc + GeminiProvider.Response) : GeminiProvider.t :=
  GeminiProvider.mk "test_key" (fun n _ => nth n script rest).

Definition anthropic_ok (text : string) : PyExc + AnthropicProvider.Message :=
  inr (AnthropicProvider.mkMessage [text] Absent).

Definition openai_ok (text : string) : PyExc + OpenAIProvider.Completion :=
  inr (OpenAIProvider.mkCompletion [text] Absent).

Definition gemini_ok (text : string) : PyExc + GeminiProvider.Response :=
  inr (GeminiProvider.mkResponse (GeminiProvider.TextStr text) None Absent text).

(** The sampling parameters the Gemini adapter always sends. *)
Definition gemini_config : GeminiProvider.GenerationConfig :=
  GeminiProvider.mkConfig (7 # 10)%Q (95 # 100)%Q 40 2048.

(** The request each adapter builds for [generate(prompt, model)]. *)
Definition anthropic_request (prompt model : string)
  : AnthropicProvider.MessageParams :=
  let parsed := AnthropicProvider._parse_model_with_thinking_tokens model in
  AnthropicProvider.mkParams (fst parsed) 1024 [("user", prompt)]
    (if truthy_int (snd parsed) then snd parsed else None).

Definition openai_request (prompt model : string) : OpenAIProvider.Request :=
  if startswith model "gpt-"
  then OpenAIProvider.ChatCompletionsCreate model [("user", prompt)] (7 # 10)%Q 1024
  else OpenAIProvider.CompletionsCreate model prompt (7 # 10)%Q 1024.

Definition gemini_request (prompt model : string) : GeminiProvider.Request :=
  GeminiProvider.mkRequest model gemini_config prompt.

(** The endpoint the OpenAI adapter picks for a model name. *)
Definition openai_client (self : OpenAIProvider.t) (model : string)
  : nat -> OpenAIProvider.Request -> PyExc + OpenAIProvider.Completion :=
  if startswith model "gpt-"
  then OpenAIProvider.client_chat_completions_create self
  else OpenAIProvider.client_completions_create self.

(** The text the Gemini adapter takes from an answer: the direct field,
    else the candidate structure. *)
Definition gemini_text (response : GeminiProvider.Response) : PyExc + string :=
  match GeminiProvider.resp_text response with
  | GeminiProvider.TextStr text => inr text
  | GeminiProvider.TextAbsent =>
      GeminiProvider._extract_text_from_response response
  | GeminiProvider.TextNone rejected => inl rejected
  | GeminiProvider.TextRaises e => inl e
  end.

(** One attempt: the body of the [try] block of [generate] after the
    request is built, i.e. the vendor call and the extraction of text and
    token count.  It fails when the vendor call raises or when the answer
    is malformed. *)
Definition anthropic_attempt (self : AnthropicProvider.t) (n : nat)
    (request : AnthropicProvider.MessageParams) : PyExc + (string * option Z) :=
  match AnthropicProvider.client_messages_create self n request with
  | inl e => inl e
  | inr response =>
      match AnthropicProvider.message_tokens response with
      | inl e => inl e
      | inr tokens =>
          match AnthropicProvider.msg_content response with
          | block :: _ => inr (block, tokens)
          | [] => inl (mkExc IndexError "list index out of range")
          end
      end
  end.

Definition openai_attempt (self : OpenAIProvider.t) (model : string) (n : nat)
    (request : OpenAIProvider.Request) : PyExc + (string * option Z) :=
  match openai_client self model n request with
  | inl e => inl e
  | inr response =>
      match OpenAIProvider.completion_tokens response with
      | inl e => inl e
      | inr tokens =>
          match OpenAIProvider.choices response with
          | text :: _ => inr (text, tokens)
          | [] => inl (mkExc IndexError "list index out of range")
          end
      end
  end.

Definition gemini_attempt (self : GeminiProvider.t) (n : nat)
    (request : GeminiProvider.Request) : PyExc + (string * option Z) :=
  match GeminiProvider.generate_content self n request with
  | inl e => inl e
  | inr response =>
      match GeminiProvider.response_tokens response with
      | inl e => inl e
      | inr tokens =>
          match gemini_text response with
          | inr content => inr (content, tokens)
          | inl e => inl e
          end
      end
  end.

(** Vendor stubs that echo the model name and the prompt they received. *)
Definition anthropic_echo : AnthropicProvider.t :=
  AnthropicProvider.mk "test_key"
    (fun _ request =>
       inr (AnthropicProvider.mkMessage
              [AnthropicProvider.req_model request +:+ " <- "
               +:+ match AnthropicProvider.req_messages request with
                   | (_, prompt) :: _ => prompt
                   | [] => ""
                   end] Absent)).



(** Failures used in the examples. *)
Definition server_error : PyExc := mkExc APIError "Internal server error".

(** The fixed catalogue of the Anthropic adapter. *)
Definition anthropic_catalogue : list string :=
  [ "claude-3-opus-20240229"; "claude-3-sonnet-20240229";
    "claude-3-haiku-20240307"; "claude-3-7-sonnet-20250219";
    "claude-2.1"; "claude-2.0"; "claude-instant-1.2" ].

(** A model name with a line feed in it. *)
Definition two_line_name : string := String "a" (String LF "b").

(** [n] copies of the character [c]. *)
Fixpoint repeat_char (c : ascii) (n : nat) : string :=
  match n with
  | O => EmptyString
  | S n' => String c (repeat_char c n')
  end.

(** One digit more than [int] accepts. *)
Definition too_many_digits : string := repeat_char "9" (S int_max_str_digits).

(** What [int] raises on [too_many_digits]. *)
Definition digit_limit_error : PyExc :=
  mkExc ValueError
    "Exceeds the limit (4300 digits) for integer string conversion: value has 4301 digits; use sys.set_int_max_str_digits() to increase the limit".

(** An option suffix followed by one final line feed. *)
Definition suffix_then_LF : string := "model:4k" +:+ String LF "".

(** What the unit group multiplies the digits by. *)
Definition multiplier (u : option ascii) : Z :=
  match u with
  | Some "k"%char => 1024
  | Some "m"%char => 1024 * 1024
  | _ => 1
  end.

(** [str(n)] for a natural number: its decimal numeral. *)
Definition decimal (n : N) : string :=
  DecimalString.NilEmpty.string_of_uint (N.to_uint n).

(** The retry context is usable: prompt and model both present and
    non-empty. *)
Definition has_context (prompt model : option string) : bool :=
  match prompt, model with
  | Some p, Some m => truthy p && truthy m
  | _, _ => false
  end.

(** The one-letter code of each provider. *)
Definition short_code (p : Provider) : string :=
  match p with
  | OPENAI => "o"
  | ANTHROPIC => "a"
  | GEMINI => "g"
  | GROQ => "q"
  | DEEPSEEK => "d"
  | OLLAMA => "l"
  end.

(** A rate-limit failure of the Anthropic and OpenAI SDKs. *)
Definition rate_limited : PyExc := mkExc RateLimitError "Rate limit exceeded".

(** A process environment with the three credentials. *)
Definition full_environ : gmap string string :=
  <["ANTHROPIC_API_KEY" := "sk-ant"]> (
  <["OPENAI_API_KEY" := "sk-oai"]> (
  <["GEMINI_API_KEY" := "g-key"]> ∅)).


(** The failure of indexing an empty list. *)
Definition index_error : PyExc := mkExc IndexError "list index out of range".

Definition not_slash (c : ascii) : bool := negb (Ascii.eqb c "/"%char).

(** [id] is what follows the last slash of [full], or all of [full] when
    it has no slash. *)
Definition last_segment (full id : string) : Prop :=
  all_chars not_slash id = true
  /\ (full = id \/ exists dir, full = dir +:+ "/" +:+ id).

(** A catalogue entry that lists the method [generateContent]. *)
Definition generates_content (m : GeminiProvider.Model) : Prop :=
  In "generateContent" (GeminiProvider.supported_generation_methods m).

(** A small Gemini catalogue. *)
Definition gemini_catalogue : list GeminiProvider.Model :=
  [ GeminiProvider.mkModel "models/gemini-pro" ["generateContent"];
    GeminiProvider.mkModel "models/embedding-model" ["embedContent"];
    GeminiProvider.mkModel "tuned/models/gemini-ultra"
      ["countTokens"; "generateContent"] ].

(** ** The pattern matcher against the pattern's language *)

Section strings.

Lemma append_cons c s t : String c s +:+ t = String c (s +:+ t).
Proof. reflexivity. Qed.

Lemma append_nil s : "" +:+ s = s.
Proof. reflexivity. Qed.

Lemma append_nil_r s : s +:+ "" = s.
Proof. induction s as [|c s IH]; [reflexivity|]. now rewrite append_cons, IH. Qed.

Lemma append_assoc s t u : (s +:+ t) +:+ u = s +:+ (t +:+ u).
Proof.
  induction s as [|c s IH]; [reflexivity|].
  now rewrite !append_cons, IH.
Qed.

Lemma all_chars_app p s t :
  all_chars p (s +:+ t) = all_chars p s && all_chars p t.
Proof.
  induction s as [|c s IH]; [reflexivity|].
  rewrite append_cons. simpl. rewrite IH. now rewrite andb_assoc.
Qed.

Lemma is_digit_not_colon c : is_digit c = true -> not_colon c = true.
Proof.
  unfold not_colon. destruct (Ascii.eqb_spec c ":"%char) as [->|]; [|reflexivity].
  vm_compute. discriminate.
Qed.

Lemma is_digit_not_unit c : is_digit c = true -> Re.is_unit c = false.
Proof.
  unfold Re.is_unit.
  destruct (Ascii.eqb_spec c "k"%char) as [->|]; [vm_compute; discriminate|].
  destruct (Ascii.eqb_spec c "m"%char) as [->|]; [vm_compute; discriminate|].
  reflexivity.
Qed.

Lemma is_digit_not_LF c : is_digit c = true -> Ascii.eqb c LF = false.
Proof.
  destruct (Ascii.eqb_spec c LF) as [->|]; [vm_compute; discriminate|].
  reflexivity.
Qed.

Lemma digits_no_colon d : all_chars is_digit d = true -> all_chars not_colon d = true.
Proof.
  induction d as [|c d IH]; [reflexivity|]. simpl.
  intros [Hc Hd]%andb_true_iff. now rewrite is_digit_not_colon, IH.
Qed.

End strings.

Section matcher.

Lemma span_digits_spec s d r :
  Re.span_digits s = (d, r) ->
  s = d +:+ r /\ all_chars is_digit d = true
  /\ match r with String c _ => is_digit c = false | EmptyString => True end.
Proof.
  revert d r. induction s as [|c s IH]; simpl; intros d r H.
  - inversion H; subst. auto.
  - destruct (is_digit c) eqn:Hc.
    + destruct (Re.span_digits s) as [d' r'] eqn:Hs. inversion H; subst.
      destruct (IH d' r eq_refl) as (-> & Hd & Hr).
      rewrite append_cons. simpl. rewrite Hc, Hd. auto.
    + inversion H; subst. rewrite Hc. auto.
Qed.

Lemma span_digits_app d r :
  all_chars is_digit d = true ->
  match r with String c _ => is_digit c = false | EmptyString => True end ->
  Re.span_digits (d +:+ r) = (d, r).
Proof.
  intros Hd Hr. induction d as [|c d IH].
  - rewrite append_nil. destruct r as [|c r]; [reflexivity|].
    simpl. now rewrite Hr.
  - simpl in Hd. apply andb_true_iff in Hd as [Hc Hd].
    rewrite append_cons. simpl. now rewrite Hc, (IH Hd).
Qed.

Lemma match_unit_end_spec r u :
  Re.match_unit_end r = Some u ->
  exists nl, unit_group u /\ line_end nl /\ r = unit_text u +:+ nl.
Proof.
  unfold Re.match_unit_end, unit_group, line_end.
  destruct r as [|c r].
  - intros [= <-]. exists "". auto.
  - destruct (Re.is_unit c && Re.at_end r) eqn:Hu.
    + intros [= <-]. apply andb_true_iff in Hu as [Hc Hr].
      unfold Re.is_unit in Hc. apply orb_true_iff in Hc.
      assert (Hnl : r = "" \/ r = String LF "").
      { destruct r as [|c' [|c'' r]]; simpl in Hr; try discriminate; auto.
        apply Ascii.eqb_eq in Hr as ->. auto. }
      exists r. simpl.
      destruct Hc as [->%Ascii.eqb_eq | ->%Ascii.eqb_eq]; auto.
    + destruct (Re.at_end (String c r)) eqn:He; [|discriminate].
      intros [= <-]. destruct r as [|c' r]; simpl in He; [|discriminate].
      apply Ascii.eqb_eq in He as ->. exists (String LF ""). auto.
Qed.

Lemma match_unit_end_complete u nl :
  unit_group u -> line_end nl ->
  Re.match_unit_end (unit_text u +:+ nl) = Some u.
Proof.
  intros [-> | [-> | ->]] [-> | ->]; reflexivity.
Qed.

(** The tail of the pattern accepts exactly digits, an optional unit and
    the end of the line. *)
Lemma match_tail_spec s d u :
  Re.match_tail s = Some (d, u) ->
  exists nl, digits d /\ unit_group u /\ line_end nl
             /\ s = d +:+ unit_text u +:+ nl.
Proof.
  unfold Re.match_tail. destruct (Re.span_digits s) as [d' r] eqn:Hs.
  apply span_digits_spec in Hs as (-> & Hd & _).
  destruct d' as [|c d']; [discriminate|].
  destruct (Re.match_unit_end r) as [u'|] eqn:Hr; [|discriminate].
  intros [= <- <-]. apply match_unit_end_spec in Hr as (nl & Hu & Hnl & ->).
  exists nl. repeat split; auto; discriminate.
Qed.

Lemma match_tail_complete d u nl :
  digits d -> unit_group u -> line_end nl ->
  Re.match_tail (d +:+ unit_text u +:+ nl) = Some (d, u).
Proof.
  intros [Hne Hd] Hu Hnl. unfold Re.match_tail.
  rewrite span_digits_app; auto.
  - destruct d; [congruence|]. now rewrite match_unit_end_complete.
  - destruct Hu as [-> | [-> | ->]], Hnl as [-> | ->]; simpl; auto.
Qed.

Lemma tail_no_colon d u nl :
  digits d -> unit_group u -> line_end nl ->
  all_chars not_colon (d +:+ unit_text u +:+ nl) = true.
Proof.
  intros [_ Hd] Hu Hnl. rewrite !all_chars_app, digits_no_colon by exact Hd.
  destruct Hu as [-> | [-> | ->]], Hnl as [-> | ->]; reflexivity.
Qed.

Lemma match_tail_colon s t :
  Re.match_tail (s +:+ ":" +:+ t) = None.
Proof.
  destruct (Re.match_tail (s +:+ ":" +:+ t)) as [[d u]|] eqn:H; [|reflexivity].
  apply match_tail_spec in H as (nl & Hd & Hu & Hnl & E).
  pose proof (tail_no_colon d u nl Hd Hu Hnl) as Hc.
  rewrite <- E, !all_chars_app in Hc. simpl in Hc.
  rewrite andb_false_r in Hc. discriminate.
Qed.

(** Completeness: every subject in the pattern's language is matched,
    with exactly its groups. *)
Lemma re_match_complete s g1 g2 g3 :
  Matches s g1 g2 g3 -> Re.re_match s = Some (g1, g2, g3).
Proof.
  intros [g1' d u nl Hg Hd Hu Hnl]. clear s g1 g2 g3.
  induction g1' as [|c g IH].
  - rewrite append_nil. change (":" +:+ ?x) with (String ":"%char x).
    simpl. now rewrite match_tail_complete.
  - simpl in Hg. apply andb_true_iff in Hg as [Hc Hg].
    rewrite append_cons. simpl Re.re_match.
    rewrite match_tail_colon, (IH Hg).
    unfold not_LF in Hc. apply negb_true_iff in Hc. rewrite Hc.
    now destruct (Ascii.eqb c ":").
Qed.

(** Soundness: whatever is matched lies in the pattern's language. *)
Lemma re_match_sound s g1 g2 g3 :
  Re.re_match s = Some (g1, g2, g3) -> Matches s g1 g2 g3.
Proof.
  revert g1. induction s as [|c s IH]; intros g1; [discriminate|].
  simpl.
  destruct (if Ascii.eqb c ":" then Re.match_tail s else None)
    as [[d u]|] eqn:Htail.
  - intros [= <- <- <-].
    destruct (Ascii.eqb_spec c ":"%char) as [->|]; [|discriminate].
    apply match_tail_spec in Htail as (nl & Hd & Hu & Hnl & ->).
    apply (Matches_intro "" d u nl); auto.
  - destruct (Ascii.eqb c LF) eqn:Hc; [discriminate|].
    destruct (Re.re_match s) as [[[g d] u]|] eqn:Hs; [|discriminate].
    intros [= <- <- <-].
    destruct (IH g eq_refl) as [g' d' u' nl Hg Hd Hu Hnl].
    apply (Matches_intro (String c g') d' u' nl); auto.
    simpl. unfold not_LF at 1. now rewrite Hc, Hg.
Qed.

End matcher.

(** ** The model-option parser *)

Section parser.

Import AnthropicProvider.

Lemma re_match_no_colon s :
  all_chars not_colon s = true -> Re.re_match s = None.
Proof.
  induction s as [|c s IH]; [reflexivity|]. simpl.
  intros [Hc Hs]%andb_true_iff. unfold not_colon in Hc.
  apply negb_true_iff in Hc. rewrite Hc, (IH Hs).
  now destruct (Ascii.eqb c LF).
Qed.

(** When what follows the last colon is not accepted by the tail of the
    pattern, no earlier colon can help. *)
Lemma re_match_bad_tail base x :
  all_chars not_colon x = true -> Re.match_tail x = None ->
  Re.re_match (base +:+ ":" +:+ x) = None.
Proof.
  intros Hx Ht. induction base as [|c base IH].
  - rewrite append_nil. change (":" +:+ x) with (String ":"%char x).
    simpl. now rewrite Ht, re_match_no_colon.
  - rewrite append_cons. simpl. rewrite match_tail_colon, IH.
    now destruct (Ascii.eqb c ":"), (Ascii.eqb c LF).
Qed.

Lemma match_tail_none x : ~ option_suffix_nl x -> Re.match_tail x = None.
Proof.
  intros Hx. destruct (Re.match_tail x) as [[d u]|] eqn:H; [|reflexivity].
  exfalso. apply Hx. apply match_tail_spec in H as (nl & ? & ? & ? & ->).
  exists d, u, nl. auto.
Qed.

Lemma parse_matches raw g1 g2 g3 :
  Matches raw g1 g2 g3 ->
  _parse_model_with_thinking_tokens raw =
    (g1, Some (match g3 with
               | Some "k"%char => int g2 * 1024
               | Some "m"%char => int g2 * (1024 * 1024)
               | _ => int g2
               end)).
Proof.
  intros H. unfold _parse_model_with_thinking_tokens.
  now rewrite (re_match_complete _ _ _ _ H).
Qed.

(** [int] reads a digit string as a decimal numeral: appending a digit
    multiplies by ten and adds the digit. *)
Lemma int_acc_snoc acc d c :
  int_acc acc (d +:+ String c "") = 10 * int_acc acc d + digit_value c.
Proof.
  revert acc. induction d as [|c' d IH]; intros acc; [reflexivity|].
  rewrite append_cons. simpl. apply IH.
Qed.

Lemma int_snoc d c : int (d +:+ String c "") = 10 * int d + digit_value c.
Proof. apply int_acc_snoc. Qed.

(** [int] agrees with the standard library's reading of decimal numerals,
    and every digit string is such a numeral. *)
Lemma int_acc_decimal d : forall u r,
  DecimalString.NilEmpty.uint_of_string d = Some u ->
  int_acc (Z.of_N (DecimalPos.Unsigned.of_lu r)) d
  = Z.of_N (DecimalPos.Unsigned.of_lu (Decimal.revapp u r)).
Proof.
  induction d as [|c d IH]; intros u r H; simpl in H.
  - now injection H as <-.
  - destruct (DecimalString.NilEmpty.uint_of_string d) as [u'|] eqn:Hd;
      [|discriminate].
    apply DecimalString.uint_of_char_spec in H.
    change (int_acc (Z.of_N (DecimalPos.Unsigned.of_lu r)) (String c d))
      with (int_acc (10 * Z.of_N (DecimalPos.Unsigned.of_lu r)
                     + digit_value c) d).
    repeat destruct H as [[-> ->] | H]; try destruct H as [-> ->];
      simpl Decimal.revapp; rewrite <- (IH u' _ eq_refl); f_equal;
      cbn [DecimalPos.Unsigned.of_lu];
      match goal with
      | |- context [digit_value ?c] =>
          let v := eval vm_compute in (digit_value c) in
          change (digit_value c) with v
      end;
      lia.
Qed.

Lemma int_decimal d u :
  DecimalString.NilEmpty.uint_of_string d = Some u -> int d = Z.of_uint u.
Proof.
  intros H. unfold int, Z.of_uint.
  rewrite DecimalPos.Unsigned.of_uint_alt.
  apply (int_acc_decimal d u Decimal.Nil H).
Qed.

Lemma digits_decimal d :
  all_chars is_digit d = true ->
  exists u, DecimalString.NilEmpty.uint_of_string d = Some u
            /\ int d = Z.of_uint u.
Proof.
  intros Hd.
  assert (H : exists u, DecimalString.NilEmpty.uint_of_string d = Some u).
  { induction d as [|c d IH]; [now exists Decimal.Nil|].
    simpl in Hd. apply andb_true_iff in Hd as [Hc Hd].
    destruct (IH Hd) as [u Hu]. simpl. rewrite Hu.
    destruct c as [[|] [|] [|] [|] [|] [|] [|] [|]];
      try discriminate Hc; simpl; eauto. }
  destruct H as [u Hu]. exists u. split; [exact Hu | now apply int_decimal].
Qed.

Lemma option_suffix_chars x :
  option_suffix x ->
  all_chars (fun c => is_digit c || Re.is_unit c) x = true.
Proof.
  intros (d & u & [_ Hd] & Hu & ->). rewrite all_chars_app.
  apply andb_true_iff. split.
  - clear Hu. induction d as [|c d IH]; [reflexivity|]. simpl in *.
    apply andb_true_iff in Hd as [-> Hd]. now rewrite IH.
  - destruct Hu as [-> | [-> | ->]]; reflexivity.
Qed.

(** The parser as the interpreter runs it, on the pattern's language. *)
Lemma parse_call_no_match raw :
  Re.re_match raw = None ->
  _parse_model_with_thinking_tokens_call raw = inr (raw, None).
Proof.
  intros H. unfold _parse_model_with_thinking_tokens_call. now rewrite H.
Qed.

Lemma parse_call_match raw g1 g2 g3 :
  Matches raw g1 g2 g3 -> (String.length g2 <= int_max_str_digits)%nat ->
  _parse_model_with_thinking_tokens_call raw =
    inr (g1, Some (match g3 with
                   | Some "k"%char => int g2 * 1024
                   | Some "m"%char => int g2 * (1024 * 1024)
                   | _ => int g2
                   end)).
Proof.
  intros H Hlen. unfold _parse_model_with_thinking_tokens_call, int_call.
  rewrite (re_match_complete _ _ _ _ H).
  apply Nat.leb_le in Hlen. now rewrite Hlen.
Qed.

Lemma parse_call_long raw g1 g2 g3 :
  Matches raw g1 g2 g3 -> (int_max_str_digits < String.length g2)%nat ->
  exists msg,
    _parse_model_with_thinking_tokens_call raw = inl (mkExc ValueError msg).
Proof.
  intros H Hlen. unfold _parse_model_with_thinking_tokens_call, int_call.
  rewrite (re_match_complete _ _ _ _ H).
  apply Nat.leb_gt in Hlen. rewrite Hlen. eauto.
Qed.

Lemma parse_call_raises raw e :
  _parse_model_with_thinking_tokens_call raw = inl e ->
  exc_class e = ValueError
  /\ exists g1 g2 g3,
      Matches raw g1 g2 g3 /\ (int_max_str_digits < String.length g2)%nat.
Proof.
  unfold _parse_model_with_thinking_tokens_call, int_call.
  destruct (Re.re_match raw) as [[[g1 g2] g3]|] eqn:H; [|discriminate].
  apply re_match_sound in H.
  destruct (Nat.leb_spec (String.length g2) int_max_str_digits) as [Hle|Hgt];
    [discriminate|].
  intros [= <-]. split; [reflexivity|]. eauto.
Qed.

(** Where the call returns, it returns the value of the parser. *)
Lemma parse_call_value raw v :
  _parse_model_with_thinking_tokens_call raw = inr v ->
  v = _parse_model_with_thinking_tokens raw.
Proof.
  unfold _parse_model_with_thinking_tokens_call, int_call,
    _parse_model_with_thinking_tokens.
  destruct (Re.re_match raw) as [[[g1 g2] g3]|]; [|congruence].
  destruct (String.length g2 <=? int_max_str_digits)%nat; congruence.
Qed.

Lemma length_repeat_char c n : String.length (repeat_char c n) = n.
Proof. induction n as [|n IH]; simpl; congruence. Qed.

Lemma digits_repeat_char c n :
  is_digit c = true -> digits (repeat_char c (S n)).
Proof.
  intros Hc. split; [discriminate|].
  induction n as [|n IH].
  - simpl. now rewrite Hc.
  - change (all_chars is_digit (repeat_char c (S (S n))))
      with (is_digit c && all_chars is_digit (repeat_char c (S n))).
    now rewrite Hc, IH.
Qed.

End parser.

(** ** The prefix registry *)

Section registry.

Lemma prefix_map_documented k p :
  (k, p) ∈ documented_prefixes -> prefix_map !! k = Some p.
Proof.
  unfold documented_prefixes. intros Hin.
  repeat (apply elem_of_cons in Hin as [[= -> ->] | Hin];
          [vm_compute; reflexivity|]).
  now apply elem_of_nil in Hin.
Qed.

Lemma prefix_map_undocumented k :
  (forall k' p, (k', p) ∈ documented_prefixes -> k <> k') ->
  prefix_map !! k = None.
Proof.
  intros Hk. unfold prefix_map.
  assert (Hne : forall k', In k' (map fst documented_prefixes) -> k' <> k).
  { intros k' Hin E. apply in_map_iff in Hin as ([k'' p] & <- & Hin).
    apply list_elem_of_In in Hin. now apply (Hk k'' p Hin). }
  rewrite !lookup_insert_ne;
    [apply lookup_empty | ..]; (apply Hne; simpl; tauto).
Qed.

End registry.

(** ** The adapters: one step of [generate], and the shape of the handler *)

Ltac handler_cases :=
  repeat match goal with
         | |- context [if ?b then _ else _] => destruct b
         end;
  eauto 6.

Section anthropic.

Import AnthropicProvider.

Lemma anthropic_generate_S self fuel prompt model w :
  generate self (S fuel) prompt model w =
    let w1 := record_call (anthropic_request prompt model) w in
    match anthropic_attempt self (length (calls w))
            (anthropic_request prompt model) with
    | inl e =>
        _handle_error (generate self fuel) e 0 (Some prompt) (Some model) w1
    | inr (content, tokens) =>
        (Returned (mkPromptResponse model content tokens), w1)
    end.
Proof.
  unfold anthropic_attempt, anthropic_request. simpl.
  destruct (_parse_model_with_thinking_tokens model). simpl.
  destruct (client_messages_create _ _ _) as [e|response]; [reflexivity|].
  destruct (message_tokens response); [reflexivity|].
  now destruct (msg_content response).
Qed.

(** The handler either re-enters [generate] after one sleep, or raises;
    it never touches the call log itself. *)
Lemma anthropic_handle_error_cases {A} (g : _ -> _ -> _ -> Outcome A * _)
      e rc p m w :
  (exists s, _handle_error g e rc (Some p) (Some m) w = g p m (time_sleep s w))
  \/ (exists exc w', _handle_error g e rc (Some p) (Some m) w = (Raised exc, w')
                     /\ calls w' = calls w).
Proof. unfold _handle_error. handler_cases. Qed.

End anthropic.

Section openai.

Import OpenAIProvider.

Lemma openai_generate_S self fuel prompt model w :
  generate self (S fuel) prompt model w =
    let w1 := record_call (openai_request prompt model) w in
    match openai_attempt self model (length (calls w))
            (openai_request prompt model) with
    | inl e =>
        _handle_error (generate self fuel) e 0 (Some prompt) (Some model) w1
    | inr (content, tokens) =>
        (Returned (mkPromptResponse model content tokens), w1)
    end.
Proof.
  unfold openai_attempt, openai_request, openai_client. simpl.
  destruct (startswith model "gpt-").
  - destruct (client_chat_completions_create _ _ _) as [e|response];
      [reflexivity|].
    destruct (completion_tokens response); [reflexivity|].
    now destruct (choices response).
  - destruct (client_completions_create _ _ _) as [e|response];
      [reflexivity|].
    destruct (completion_tokens response); [reflexivity|].
    now destruct (choices response).
Qed.

Lemma openai_handle_error_cases {A} (g : _ -> _ -> _ -> Outcome A * _)
      e rc p m w :
  (exists s, _handle_error g e rc (Some p) (Some m) w = g p m (time_sleep s w))
  \/ (exists exc w', _handle_error g e rc (Some p) (Some m) w = (Raised exc, w')
                     /\ calls w' = calls w).
Proof. unfold _handle_error. handler_cases. Qed.

End openai.

Section gemini.

Import GeminiProvider.

Lemma gemini_generate_S self fuel prompt model w :
  generate self (S fuel) prompt model w =
    let w1 := record_call (gemini_request prompt model) w in
    match gemini_attempt self (length (calls w))
            (gemini_request prompt model) with
    | inl e =>
        _handle_error (generate self fuel) e 0 (Some prompt) (Some model) w1
    | inr (content, tokens) =>
        (Returned (mkPromptResponse model content tokens), w1)
    end.
Proof.
  unfold gemini_attempt, gemini_request, gemini_text, gemini_config. simpl.
  destruct (generate_content _ _ _) as [e|response]; [reflexivity|].
  destruct (response_tokens response); [reflexivity|].
  destruct (resp_text response); try reflexivity.
  now destruct (_extract_text_from_response response).
Qed.

Lemma gemini_handle_error_cases {A} (g : _ -> _ -> _ -> Outcome A * _)
      e rc p m w :
  (exists s, _handle_error g e rc (Some p) (Some m) w = g p m (time_sleep s w))
  \/ (exists exc w', _handle_error g e rc (Some p) (Some m) w = (Raised exc, w')
                     /\ calls w' = calls w).
Proof. unfold _handle_error. handler_cases. Qed.

End gemini.

(** * Properties of the specification *)

(** ** Model-option parser *)

(** C3 (as stated, refuted): a name holding a line feed, followed by
    [:4], is returned whole and without option, because [.] does not
    match a line feed; and after a digit string of 4301 digits the call of
    [int] raises, so nothing is returned at all. *)
Lemma C3_line_feed_and_digit_limit :
  digits "4"
  /\ AnthropicProvider._parse_model_with_thinking_tokens_call
       (two_line_name +:+ ":" +:+ "4")
     = inr (two_line_name +:+ ":" +:+ "4", None)
  /\ AnthropicProvider._parse_model_with_thinking_tokens_call
       (two_line_name +:+ ":" +:+ "4")
     <> inr (two_line_name, Some (int "4"))
  /\ digits too_many_digits
  /\ AnthropicProvider._parse_model_with_thinking_tokens_call
       ("model" +:+ ":" +:+ too_many_digits)
     = inl digit_limit_error.
Proof.
  split; [split; [discriminate | reflexivity]|].
  split; [reflexivity|]. split; [discriminate|].
  split; [apply digits_repeat_char; reflexivity|].
  vm_compute. reflexivity.
Qed.

(** C3 (amended): for every name without a line feed and every non-empty
    digit string of at most 4300 digits, the limit of [int], the parser
    returns for [name:digits] the name and the decimal value of the
    digits; with the unit [k] the value is multiplied by 1024, with [m] by
    1024 * 1024.  With more than 4300 digits each of the three forms
    raises a [ValueError].  Units are lower case only: with [K] or [M] the
    whole string is the base model and no option is returned. *)
Theorem C3_parse_option_suffix (name d : string) :
  all_chars not_LF name = true ->
  digits d ->
  ((String.length d <= int_max_str_digits)%nat ->
   AnthropicProvider._parse_model_with_thinking_tokens_call
     (name +:+ ":" +:+ d)
   = inr (name, Some (int d))
   /\ AnthropicProvider._parse_model_with_thinking_tokens_call
        (name +:+ ":" +:+ d +:+ "k")
      = inr (name, Some (int d * 1024))
   /\ AnthropicProvider._parse_model_with_thinking_tokens_call
        (name +:+ ":" +:+ d +:+ "m")
      = inr (name, Some (int d * 1024 * 1024)))
  /\ ((int_max_str_digits < String.length d)%nat ->
      forall u, unit_group u ->
      exists msg,
        AnthropicProvider._parse_model_with_thinking_tokens_call
          (name +:+ ":" +:+ d +:+ unit_text u)
        = inl (mkExc ValueError msg))
  /\ AnthropicProvider._parse_model_with_thinking_tokens_call
       (name +:+ ":" +:+ d +:+ "K")
     = inr (name +:+ ":" +:+ d +:+ "K", None)
  /\ AnthropicProvider._parse_model_with_thinking_tokens_call
       (name +:+ ":" +:+ d +:+ "M")
     = inr (name +:+ ":" +:+ d +:+ "M", None).
Proof.
  intros Hname Hd.
  assert (Hu : forall u, unit_group u ->
             Matches (name +:+ ":" +:+ d +:+ unit_text u) name d u).
  { intros u Hu.
    pose proof (Matches_intro name d u "" Hname Hd Hu (or_introl eq_refl)) as M.
    now rewrite append_nil_r in M. }
  assert (Hbad : forall c, is_digit c = false -> Re.is_unit c = false ->
             c <> ":"%char -> c <> LF ->
             AnthropicProvider._parse_model_with_thinking_tokens_call
               (name +:+ ":" +:+ d +:+ String c "")
             = inr (name +:+ ":" +:+ d +:+ String c "", None)).
  { intros c Hc1 Hc2 Hc3 Hc4. apply parse_call_no_match.
    apply re_match_bad_tail.
    - rewrite all_chars_app, digits_no_colon by apply Hd. simpl.
      unfold not_colon. now destruct (Ascii.eqb_spec c ":"%char).
    - unfold Re.match_tail. rewrite span_digits_app; [|apply Hd|exact Hc1].
      destruct Hd as [Hne _]. destruct d; [congruence|].
      simpl. rewrite Hc2. simpl.
      now destruct (Ascii.eqb_spec c LF). }
  split; [|split; [|split]].
  - intros Hlen. split; [|split].
    + specialize (Hu None (or_introl eq_refl)). simpl in Hu.
      rewrite append_nil_r in Hu.
      now rewrite (parse_call_match _ _ _ _ Hu Hlen).
    + pose proof (Hu (Some "k"%char) (or_intror (or_introl eq_refl))) as M.
      change (unit_text (Some "k"%char)) with "k" in M.
      now rewrite (parse_call_match _ _ _ _ M Hlen).
    + pose proof (Hu (Some "m"%char) (or_intror (or_intror eq_refl))) as M.
      change (unit_text (Some "m"%char)) with "m" in M.
      rewrite (parse_call_match _ _ _ _ M Hlen). do 3 f_equal. lia.
  - intros Hlen u Hunit. exact (parse_call_long _ _ _ _ (Hu u Hunit) Hlen).
  - apply Hbad; [reflexivity | reflexivity | discriminate | discriminate].
  - apply Hbad; [reflexivity | reflexivity | discriminate | discriminate].
Qed.

Lemma C3_parse_option_suffix_witness :
  all_chars not_LF "base-model" = true
  /\ digits "4"
  /\ (String.length "4" <= int_max_str_digits)%nat
  /\ AnthropicProvider._parse_model_with_thinking_tokens_call "base-model:4k"
     = inr ("base-model", Some 4096).
Proof.
  assert (Hlen : (String.length "4" <= int_max_str_digits)%nat).
  { apply Nat.leb_le. vm_compute. reflexivity. }
  assert (Hd : digits "4") by (split; [discriminate | reflexivity]).
  split; [reflexivity|]. split; [exact Hd|]. split; [exact Hlen|].
  exact (proj1 (proj2 (proj1 (C3_parse_option_suffix "base-model" "4"
                                eq_refl Hd) Hlen))).
Defined.

(** C4 (as stated, refuted): in ["model:4k" + line feed] the last colon is
    followed by [4k] and a line feed, not by digits and a unit ending the
    string; yet [$] matches before the final line feed, so the parser
    returns ["model"] with 4096 tokens and drops the line feed.  Nor is
    the parser total: on a suffix of 4301 digits it raises. *)
Lemma C4_line_feed_and_digit_limit :
  (exists base x,
      suffix_then_LF = base +:+ ":" +:+ x
      /\ all_chars not_colon x = true /\ ~ option_suffix x)
  /\ AnthropicProvider._parse_model_with_thinking_tokens_call suffix_then_LF
     = inr ("model", Some 4096)
  /\ AnthropicProvider._parse_model_with_thinking_tokens_call suffix_then_LF
     <> inr (suffix_then_LF, None)
  /\ AnthropicProvider._parse_model_with_thinking_tokens_call
       ("model" +:+ ":" +:+ too_many_digits)
     = inl digit_limit_error.
Proof.
  split; [|split; [reflexivity | split; [discriminate|]]].
  - exists "model", ("4k" +:+ String LF ""). split; [reflexivity|].
    split; [reflexivity|].
    intros H%option_suffix_chars. discriminate H.
  - vm_compute. reflexivity.
Qed.

(** C4 (amended): for every input with no colon, and for every input whose
    last colon is not followed by digits, an optional [k] or [m], and then
    the end of the string or one final line feed, the parser does not
    raise and returns the whole input as base model and no option.  On any
    input the parser raises only a [ValueError], and exactly when the
    input ends in an option suffix whose digit string is longer than 4300
    digits, the limit of [int]. *)
Theorem C4_parse_without_suffix (raw : string) :
  (all_chars not_colon raw = true
   \/ (exists base x,
          raw = base +:+ ":" +:+ x
          /\ all_chars not_colon x = true /\ ~ option_suffix_nl x) ->
   AnthropicProvider._parse_model_with_thinking_tokens_call raw
   = inr (raw, None))
  /\ ((exists e, AnthropicProvider._parse_model_with_thinking_tokens_call raw
                 = inl e)
      <-> exists g1 g2 g3,
          Matches raw g1 g2 g3
          /\ (int_max_str_digits < String.length g2)%nat)
  /\ (forall e,
         AnthropicProvider._parse_model_with_thinking_tokens_call raw = inl e ->
         exc_class e = ValueError).
Proof.
  split; [|split].
  - intros [H | (base & x & -> & Hx & Hbad)]; apply parse_call_no_match.
    + now apply re_match_no_colon.
    + now apply re_match_bad_tail; [|apply match_tail_none].
  - split.
    + intros [e He]. now apply parse_call_raises in He.
    + intros (g1 & g2 & g3 & M & Hlen).
      destruct (parse_call_long _ _ _ _ M Hlen) as [msg Hmsg]. eauto.
  - intros e He. now apply parse_call_raises in He.
Qed.

Lemma C4_parse_without_suffix_witness :
  (all_chars not_colon "model:abc" = true
   \/ (exists base x,
          "model:abc" = base +:+ ":" +:+ x
          /\ all_chars not_colon x = true /\ ~ option_suffix_nl x))
  /\ AnthropicProvider._parse_model_with_thinking_tokens_call "model:abc"
     = inr ("model:abc", None).
Proof.
  assert (H : all_chars not_colon "model:abc" = true
              \/ (exists base x,
                     "model:abc" = base +:+ ":" +:+ x
                     /\ all_chars not_colon x = true /\ ~ option_suffix_nl x)).
  { right. exists "model", "abc". split; [reflexivity|]. split; [reflexivity|].
    intros (d & u & nl & [Hne Hd] & _ & _ & E).
    destruct d as [|c d]; [congruence|].
    rewrite append_cons in E. injection E as <- _. discriminate Hd. }
  split; [exact H | exact (proj1 (C4_parse_without_suffix "model:abc") H)].
Defined.

(** ** Prefix registry *)

(** C7: [Provider.from_prefix] looks its argument up in lower case.  Every
    spelling, in any letter case, of a documented prefix yields the
    documented provider; every other string raises a [ValueError] whose
    message ends with the offending prefix as it was passed. *)
Theorem C7_from_prefix_total (prefix : string) :
  (forall k p, (k, p) ∈ documented_prefixes ->
               lower prefix = k -> from_prefix prefix = Returned p)
  /\ ((forall k p, (k, p) ∈ documented_prefixes -> lower prefix <> k) ->
      from_prefix prefix
      = Raised (mkExc ValueError ("Unknown provider prefix: " +:+ prefix))).
Proof.
  unfold from_prefix. split.
  - intros k p Hin ->. now rewrite (prefix_map_documented _ _ Hin).
  - intros H. now rewrite (prefix_map_undocumented _ H).
Qed.

Lemma C7_from_prefix_total_witness :
  from_prefix "OpenAI" = Returned OPENAI
  /\ from_prefix "Q" = Returned GROQ
  /\ from_prefix "mistral"
     = Raised (mkExc ValueError "Unknown provider prefix: mistral").
Proof.
  split; [|split].
  - apply (proj1 (C7_from_prefix_total "OpenAI") "openai" OPENAI);
      [unfold documented_prefixes; set_solver | reflexivity].
  - apply (proj1 (C7_from_prefix_total "Q") "q" GROQ);
      [unfold documented_prefixes; set_solver | reflexivity].
  - apply (proj2 (C7_from_prefix_total "mistral")).
    intros k p Hin. unfold documented_prefixes in Hin.
    repeat (apply elem_of_cons in Hin as [[= -> ->] | Hin]; [discriminate|]).
    now apply elem_of_nil in Hin.
Defined.

(** ** Catalogues *)

(** C9: when the vendor's model listing succeeds, the OpenAI adapter's
    [list_models] returns, after that single vendor call, the
    lexicographically sorted arrangement of exactly the listed identifiers
    that start with [gpt-] or [text-]. *)
Theorem C9_openai_list_models_sorted (self : OpenAIProvider.t)
    (w : World OpenAIProvider.Request) (data : list string) :
  OpenAIProvider.client_models_list self (length (calls w)) = inr data ->
  exists ids,
    OpenAIProvider.list_models self w
    = (Returned ids, record_call OpenAIProvider.ModelsList w)
    /\ StronglySorted String.le ids
    /\ ids ≡ₚ filter (fun id => startswith id "gpt-" || startswith id "text-") data
    /\ (forall id, id ∈ ids <->
                   id ∈ data /\ (startswith id "gpt-" = true
                                 \/ startswith id "text-" = true))
    /\ (forall ids', StronglySorted String.le ids' -> ids' ≡ₚ ids -> ids' = ids).
Proof.
  intros Hdata. unfold OpenAIProvider.list_models. rewrite Hdata.
  eexists. split; [reflexivity|].
  split; [apply StronglySorted_merge_sort; apply _|].
  split; [apply merge_sort_Permutation|].
  split.
  - intros id. rewrite merge_sort_Permutation, list_elem_of_filter.
    rewrite orb_True, !Is_true_true. tauto.
  - intros ids' Hs Hp. apply (StronglySorted_unique String.le); auto.
    apply StronglySorted_merge_sort; apply _.
Qed.

Lemma C9_openai_list_models_sorted_witness :
  OpenAIProvider.client_models_list (openai_scripted [] (openai_ok "")) 0
  = inr ["gpt-4"; "gpt-3.5-turbo"; "text-davinci-003"; "davinci";
         "embedding-ada"]
  /\ exists ids,
      OpenAIProvider.list_models (openai_scripted [] (openai_ok "")) w0
      = (Returned ids, record_call OpenAIProvider.ModelsList w0)
      /\ ids = ["gpt-3.5-turbo"; "gpt-4"; "text-davinci-003"].
Proof.
  split; [reflexivity|].
  destruct (C9_openai_list_models_sorted (openai_scripted [] (openai_ok "")) w0
              _ eq_refl) as (ids & E & _).
  exists ids. split; [exact E|].
  vm_compute in E. now injection E as <-.
Defined.

(** C10: the Anthropic adapter's [list_models] is constant: whatever the
    adapter's credential and client and whatever the state of the world,
    it returns the same seven names in the same order, makes no vendor
    call, sleeps not at all and raises nothing. *)
Theorem C10_anthropic_list_models_constant (self : AnthropicProvider.t)
    (w : World AnthropicProvider.MessageParams) :
  AnthropicProvider.list_models self w = (Returned anthropic_catalogue, w)
  /\ length anthropic_catalogue = 7%nat.
Proof. split; reflexivity. Qed.

(** ** generate *)

Section response_model.

Lemma anthropic_generate_model self fuel prompt model_ w r w' :
  AnthropicProvider.generate self fuel prompt model_ w = (Returned r, w') ->
  model r = model_.
Proof.
  revert w. induction fuel as [|fuel IH]; intros w H; [discriminate|].
  rewrite anthropic_generate_S in H. cbv zeta in H.
  assert (Herr : forall e,
    AnthropicProvider._handle_error (AnthropicProvider.generate self fuel)
      e 0 (Some prompt) (Some model_)
      (record_call (anthropic_request prompt model_) w) = (Returned r, w') ->
    model r = model_).
  { intros e He.
    destruct (anthropic_handle_error_cases
                (AnthropicProvider.generate self fuel) e 0 prompt model_
                (record_call (anthropic_request prompt model_) w))
      as [[s E] | (exc & w'' & E & _)]; rewrite E in He;
      [eapply IH; eauto | discriminate]. }
  destruct (anthropic_attempt _ _ _) as [e|[c t]]; [eauto|].
  now injection H as <- _.
Qed.

Lemma openai_generate_model self fuel prompt model_ w r w' :
  OpenAIProvider.generate self fuel prompt model_ w = (Returned r, w') ->
  model r = model_.
Proof.
  revert w. induction fuel as [|fuel IH]; intros w H; [discriminate|].
  rewrite openai_generate_S in H. cbv zeta in H.
  assert (Herr : forall e,
    OpenAIProvider._handle_error (OpenAIProvider.generate self fuel)
      e 0 (Some prompt) (Some model_)
      (record_call (openai_request prompt model_) w) = (Returned r, w') ->
    model r = model_).
  { intros e He.
    destruct (openai_handle_error_cases
                (OpenAIProvider.generate self fuel) e 0 prompt model_
                (record_call (openai_request prompt model_) w))
      as [[s E] | (exc & w'' & E & _)]; rewrite E in He;
      [eapply IH; eauto | discriminate]. }
  destruct (openai_attempt _ _ _ _) as [e|[c t]]; [eauto|].
  now injection H as <- _.
Qed.

Lemma gemini_generate_model self fuel prompt model_ w r w' :
  GeminiProvider.generate self fuel prompt model_ w = (Returned r, w') ->
  model r = model_.
Proof.
  revert w. induction fuel as [|fuel IH]; intros w H; [discriminate|].
  rewrite gemini_generate_S in H. cbv zeta in H.
  assert (Herr : forall e,
    GeminiProvider._handle_error (GeminiProvider.generate self fuel)
      e 0 (Some prompt) (Some model_)
      (record_call (gemini_request prompt model_) w) = (Returned r, w') ->
    model r = model_).
  { intros e He.
    destruct (gemini_handle_error_cases
                (GeminiProvider.generate self fuel) e 0 prompt model_
                (record_call (gemini_request prompt model_) w))
      as [[s E] | (exc & w'' & E & _)]; rewrite E in He;
      [eapply IH; eauto | discriminate]. }
  destruct (gemini_attempt _ _ _) as [e|[c t]]; [eauto|].
  now injection H as <- _.
Qed.

End response_model.

(** C8: whenever [generate] of any of the three adapters returns, also
    after retries, the [model] field of the response is the model string
    that was passed in, option suffix included. *)
Theorem C8_response_echoes_model (prompt model_ : string) (r : PromptResponse)
    (fuel : nat) :
  (forall self w w',
      AnthropicProvider.generate self fuel prompt model_ w = (Returned r, w') ->
      model r = model_)
  /\ (forall self w w',
      OpenAIProvider.generate self fuel prompt model_ w = (Returned r, w') ->
      model r = model_)
  /\ (forall self w w',
      GeminiProvider.generate self fuel prompt model_ w = (Returned r, w') ->
      model r = model_).
Proof.
  split; [|split]; intros self w w'.
  - apply anthropic_generate_model.
  - apply openai_generate_model.
  - apply gemini_generate_model.
Qed.

Lemma C8_response_echoes_model_witness :
  AnthropicProvider.generate
    (anthropic_scripted [] (anthropic_ok "Test response")) 1
    "Test prompt" "claude-3-sonnet-20240229:4k" w0
  = (Returned (mkPromptResponse "claude-3-sonnet-20240229:4k" "Test response" None),
     mkWorld [AnthropicProvider.mkParams "claude-3-sonnet-20240229" 1024
                [("user", "Test prompt")] (Some 4096)] [])
  /\ model (mkPromptResponse "claude-3-sonnet-20240229:4k" "Test response" None)
     = "claude-3-sonnet-20240229:4k".
Proof.
  assert (E : AnthropicProvider.generate
    (anthropic_scripted [] (anthropic_ok "Test response")) 1
    "Test prompt" "claude-3-sonnet-20240229:4k" w0
  = (Returned (mkPromptResponse "claude-3-sonnet-20240229:4k" "Test response" None),
     mkWorld [AnthropicProvider.mkParams "claude-3-sonnet-20240229" 1024
                [("user", "Test prompt")] (Some 4096)] [])) by reflexivity.
  split; [exact E|].
  exact (proj1 (C8_response_echoes_model _ _ _ _) _ _ _ E).
Defined.

Section requests.


Lemma openai_generate_calls self fuel prompt model_ w :
  exists k,
    calls (snd (OpenAIProvider.generate self fuel prompt model_ w))
    = (calls w ++ repeat (openai_request prompt model_) k)%list.
Proof.
  revert w. induction fuel as [|fuel IH]; intros w.
  { exists 0%nat. simpl. now rewrite app_nil_r. }
  rewrite openai_generate_S. cbv zeta.
  destruct (openai_attempt _ _ _ _) as [e|[c t]].
  - destruct (openai_handle_error_cases
                (OpenAIProvider.generate self fuel) e 0 prompt model_
                (record_call (openai_request prompt model_) w))
      as [[s E] | (exc & w'' & E & Hc)]; rewrite E.
    + destruct (IH (time_sleep s (record_call (openai_request prompt model_) w)))
        as [k Hk].
      exists (S k). rewrite Hk. simpl. now rewrite <- app_assoc.
    + exists 1%nat. simpl. now rewrite Hc.
  - now exists 1%nat.
Qed.






End requests.




(** The scenario of the specification, run on the Anthropic adapter: the
    stub receives ["base-model"] and a budget of 4096, and the response
    carries ["base-model:4k"]. *)
Example anthropic_explain_recursion :
  AnthropicProvider.generate anthropic_echo 1
    "Explain recursion" "base-model:4k" w0
  = (Returned (mkPromptResponse "base-model:4k"
                 "base-model <- Explain recursion" None),
     mkWorld [AnthropicProvider.mkParams "base-model" 1024
                [("user", "Explain recursion")] (Some 4096)] []).
Proof. reflexivity. Qed.

(** ** Error classification and retry *)

Ltac by_class e :=
  destruct e as [[] ?]; simpl in *; try discriminate; try reflexivity.

Section classification.

Context {A : Type}.






Lemma gemini_handle_other
      (g : string -> string -> World _ -> Outcome A * World _) e rc p m w :
  gemini_quota_text e = false -> gemini_auth_text e = false ->
  GeminiProvider._handle_error g e rc (Some p) (Some m) w
  = if (rc <? 3)%nat && truthy p && truthy m
    then g p m (time_sleep 1 w)
    else (Raised (ProviderError_other "Google Gemini" e), w).
Proof.
  unfold gemini_auth_text, gemini_quota_text, GeminiProvider._handle_error.
  now intros -> ->.
Qed.

(** A vendor-reported API error that is neither a rate limit nor an
    authentication failure: one flat wait, then [generate] again, as
    long as the count passed in is below three. *)
Lemma anthropic_handle_api
      (g : string -> string -> World _ -> Outcome A * World _) e rc p m w :
  exc_class e = APIError -> (rc < 3)%nat ->
  truthy p = true -> truthy m = true ->
  AnthropicProvider._handle_error g e rc (Some p) (Some m) w
  = g p m (time_sleep 1 w).
Proof.
  intros He Hrc Hp Hm. unfold AnthropicProvider._handle_error.
  apply Nat.ltb_lt in Hrc. rewrite Hrc, Hp, Hm. by_class e.
Qed.

Lemma openai_handle_api
      (g : string -> string -> World _ -> Outcome A * World _) e rc p m w :
  exc_class e = APIError -> (rc < 3)%nat ->
  truthy p = true -> truthy m = true ->
  OpenAIProvider._handle_error g e rc (Some p) (Some m) w
  = g p m (time_sleep 1 w).
Proof.
  intros He Hrc Hp Hm. unfold OpenAIProvider._handle_error.
  apply Nat.ltb_lt in Hrc. rewrite Hrc, Hp, Hm. by_class e.
Qed.

End classification.

Section retry.

(** Nothing in [generate] advances the count given to the handler: each
    failed attempt is followed by a fresh [generate].  When every attempt
    fails with the same retryable cause, any bound on the number of
    nested calls is reached with the run still going. *)
Lemma anthropic_retries_forever self e prompt model_ :
  exc_class e = APIError ->
  truthy prompt = true -> truthy model_ = true ->
  (forall n, anthropic_attempt self n (anthropic_request prompt model_) = inl e) ->
  forall n w,
    AnthropicProvider.generate self n prompt model_ w
    = (Unfinished,
       mkWorld (calls w ++ repeat (anthropic_request prompt model_) n)
               (sleeps w ++ repeat 1%nat n)).
Proof.
  intros He Hp Hm Hfail. induction n as [|n IH]; intros w.
  { simpl. rewrite !app_nil_r. now destruct w. }
  rewrite anthropic_generate_S, Hfail. cbv zeta.
  rewrite anthropic_handle_api, IH by (auto; lia).
  simpl. now rewrite <- !app_assoc.
Qed.

Lemma openai_retries_forever self e prompt model_ :
  exc_class e = APIError ->
  truthy prompt = true -> truthy model_ = true ->
  (forall n, openai_attempt self model_ n (openai_request prompt model_) = inl e) ->
  forall n w,
    OpenAIProvider.generate self n prompt model_ w
    = (Unfinished,
       mkWorld (calls w ++ repeat (openai_request prompt model_) n)
               (sleeps w ++ repeat 1%nat n)).
Proof.
  intros He Hp Hm Hfail. induction n as [|n IH]; intros w.
  { simpl. rewrite !app_nil_r. now destruct w. }
  rewrite openai_generate_S, Hfail. cbv zeta.
  rewrite openai_handle_api, IH by (auto; lia).
  simpl. now rewrite <- !app_assoc.
Qed.

Lemma gemini_retries_forever self e prompt model_ :
  gemini_quota_text e = false -> gemini_auth_text e = false ->
  truthy prompt = true -> truthy model_ = true ->
  (forall n, gemini_attempt self n (gemini_request prompt model_) = inl e) ->
  forall n w,
    GeminiProvider.generate self n prompt model_ w
    = (Unfinished,
       mkWorld (calls w ++ repeat (gemini_request prompt model_) n)
               (sleeps w ++ repeat 1%nat n)).
Proof.
  intros Hq Ha Hp Hm Hfail. induction n as [|n IH]; intros w.
  { simpl. rewrite !app_nil_r. now destruct w. }
  rewrite gemini_generate_S, Hfail. cbv zeta.
  rewrite gemini_handle_other, Hp, Hm, IH by auto.
  simpl. now rewrite <- !app_assoc.
Qed.

End retry.

(** C1 (the code departs from it): the vendor fails every attempt with a
    generic API error.  Whatever number [n] of nested [generate] calls is
    allowed, each of the three adapters has then made [n] vendor calls and
    [n] waits of one time unit and is still retrying: no attempt count,
    four included, ends in a raised [ProviderError]. *)
Theorem C1_retry_budget_never_spent (n : nat) :
  AnthropicProvider.generate (anthropic_scripted [] (inl server_error)) n
    "Test prompt" "claude-3-sonnet-20240229" w0
  = (Unfinished,
     mkWorld (repeat (AnthropicProvider.mkParams "claude-3-sonnet-20240229"
                        1024 [("user", "Test prompt")] None) n)
             (repeat 1%nat n))
  /\ OpenAIProvider.generate (openai_scripted [] (inl server_error)) n
       "Test prompt" "gpt-4" w0
     = (Unfinished,
        mkWorld (repeat (OpenAIProvider.ChatCompletionsCreate "gpt-4"
                           [("user", "Test prompt")] (7 # 10)%Q 1024) n)
                (repeat 1%nat n))
  /\ GeminiProvider.generate (gemini_scripted [] (inl server_error)) n
       "Test prompt" "gemini-pro" w0
     = (Unfinished,
        mkWorld (repeat (GeminiProvider.mkRequest "gemini-pro" gemini_config
                           "Test prompt") n)
                (repeat 1%nat n)).
Proof.
  split; [|split].
  - rewrite (anthropic_retries_forever _ server_error); try reflexivity.
    intros k. unfold anthropic_attempt. simpl. now destruct k.
  - rewrite (openai_retries_forever _ server_error); try reflexivity.
    intros k. unfold openai_attempt. simpl. now destruct k.
  - rewrite (gemini_retries_forever _ server_error); try reflexivity.
    intros k. unfold gemini_attempt. simpl. now destruct k.
Qed.








(** * Further properties of the sources *)

(** ** The model-option parser, read backwards *)

Section parser_more.

Lemma int_acc_nonneg d : forall acc,
  0 <= acc -> all_chars is_digit d = true -> 0 <= int_acc acc d.
Proof.
  induction d as [|c d IH]; intros acc Hacc Hd; [exact Hacc|].
  simpl in Hd. apply andb_true_iff in Hd as [Hc Hd]. simpl int_acc.
  apply IH; [|exact Hd].
  unfold is_digit in Hc. apply andb_true_iff in Hc as [Hlo _].
  apply Nat.leb_le in Hlo. unfold digit_value. lia.
Qed.

Lemma prefix_append s t : String.prefix s (s +:+ t) = true.
Proof.
  induction s as [|c s IH]; [now destruct t|].
  rewrite append_cons. simpl. now destruct (ascii_dec c c).
Qed.

Lemma parse_some raw base n :
  AnthropicProvider._parse_model_with_thinking_tokens raw = (base, Some n) ->
  exists d u, Matches raw base d u /\ n = int d * multiplier u.
Proof.
  unfold AnthropicProvider._parse_model_with_thinking_tokens.
  destruct (Re.re_match raw) as [[[g1 g2] g3]|] eqn:H; [|discriminate].
  intros [= <- <-]. apply re_match_sound in H. exists g2, g3. split; [exact H|].
  inversion H as [? ? ? ? _ _ Hu _]; subst.
  destruct Hu as [-> | [-> | ->]]; simpl; lia.
Qed.

Lemma uint_string_digits d u :
  DecimalString.NilEmpty.uint_of_string d = Some u ->
  all_chars is_digit d = true.
Proof.
  revert u. induction d as [|c d IH]; intros u H; [reflexivity|].
  simpl in H.
  destruct (DecimalString.NilEmpty.uint_of_string d) as [u'|] eqn:Hd;
    [|discriminate].
  apply DecimalString.uint_of_char_spec in H. simpl. rewrite (IH u' eq_refl).
  repeat destruct H as [[-> _] | H]; try destruct H as [-> _]; reflexivity.
Qed.

Lemma decimal_digits n : digits (decimal n).
Proof.
  unfold decimal. split.
  - destruct n as [|p]; [discriminate|].
    pose proof (DecimalPos.Unsigned.to_uint_nonnil p) as Hp.
    simpl N.to_uint. destruct (Pos.to_uint p); try discriminate. congruence.
  - apply (uint_string_digits _ (N.to_uint n)), DecimalString.NilEmpty.usu.
Qed.

Lemma int_decimal_roundtrip n : int (decimal n) = Z.of_N n.
Proof.
  unfold decimal.
  rewrite (int_decimal _ _ (DecimalString.NilEmpty.usu (N.to_uint n))).
  unfold Z.of_uint. f_equal. apply DecimalN.Unsigned.of_to.
Qed.

End parser_more.

(** X1: the parser returns an option only for inputs of the documented
    form.  Whenever it returns tokens, the input is the returned base
    model, a colon, a non-empty digit string, an optional [k] or [m] and
    at most one final line feed; the base model has no line feed; and the
    tokens are the decimal value of the digits times 1, 1024 or
    1024 * 1024.  Whenever it returns no tokens, the base model is the
    input itself. *)
Theorem X1_parse_result_form (raw base : string) (o : option Z) :
  AnthropicProvider._parse_model_with_thinking_tokens raw = (base, o) ->
  match o with
  | None => base = raw
  | Some n =>
      exists d u nl,
        digits d /\ unit_group u /\ line_end nl
        /\ all_chars not_LF base = true
        /\ raw = base +:+ ":" +:+ d +:+ unit_text u +:+ nl
        /\ n = int d * multiplier u
  end.
Proof.
  destruct o as [n|].
  - intros H. apply parse_some in H as (d & u & M & ->).
    inversion M as [g1 g2 g3 nl Hg Hd Hu Hnl]; subst.
    exists d, u, nl. auto 10.
  - unfold AnthropicProvider._parse_model_with_thinking_tokens.
    destruct (Re.re_match raw) as [[[g1 g2] g3]|]; [discriminate|].
    now intros [= <-].
Qed.

Lemma X1_parse_result_form_witness :
  AnthropicProvider._parse_model_with_thinking_tokens "a:1:2m"
  = ("a:1", Some 2097152)
  /\ exists d u nl,
      digits d /\ unit_group u /\ line_end nl
      /\ all_chars not_LF "a:1" = true
      /\ "a:1:2m" = "a:1" +:+ ":" +:+ d +:+ unit_text u +:+ nl
      /\ 2097152 = int d * multiplier u.
Proof.
  split; [reflexivity|].
  exact (X1_parse_result_form "a:1:2m" "a:1" (Some 2097152) eq_refl).
Defined.

(** X2: for every input, the returned base model is a prefix of the input
    and returned tokens are never negative. *)
Theorem X2_parse_prefix_nonneg (raw : string) :
  String.prefix (fst (AnthropicProvider._parse_model_with_thinking_tokens raw))
                raw = true
  /\ forall n,
      snd (AnthropicProvider._parse_model_with_thinking_tokens raw) = Some n ->
      0 <= n.
Proof.
  destruct (AnthropicProvider._parse_model_with_thinking_tokens raw)
    as [base o] eqn:H.
  destruct o as [n|]; simpl.
  - apply parse_some in H as (d & u & M & ->).
    inversion M as [g1 g2 g3 nl Hg [_ Hd] Hu Hnl]; subst. split.
    + apply prefix_append.
    + intros n [= <-].
      assert (0 <= int d) by (apply int_acc_nonneg; [lia | exact Hd]).
      destruct Hu as [-> | [-> | ->]]; simpl; lia.
  - unfold AnthropicProvider._parse_model_with_thinking_tokens in H.
    destruct (Re.re_match raw) as [[[g1 g2] g3]|]; [discriminate|].
    injection H as <-. split; [|discriminate].
    rewrite <- (append_nil_r raw) at 2. apply prefix_append.
Qed.

(** X3: writing a natural number of at most 4300 decimal digits after a
    name and a colon, and parsing, gives the name and the number back;
    with [k] or [m] appended the number comes back multiplied by 1024 or
    1024 * 1024.  A number of more digits makes the parser raise a
    [ValueError]. *)
Theorem X3_parse_decimal_roundtrip (name : string) (n : N) :
  all_chars not_LF name = true ->
  ((String.length (decimal n) <= int_max_str_digits)%nat ->
   AnthropicProvider._parse_model_with_thinking_tokens_call
     (name +:+ ":" +:+ decimal n) = inr (name, Some (Z.of_N n))
   /\ AnthropicProvider._parse_model_with_thinking_tokens_call
        (name +:+ ":" +:+ decimal n +:+ "k")
      = inr (name, Some (Z.of_N n * 1024))
   /\ AnthropicProvider._parse_model_with_thinking_tokens_call
        (name +:+ ":" +:+ decimal n +:+ "m")
      = inr (name, Some (Z.of_N n * (1024 * 1024))))
  /\ ((int_max_str_digits < String.length (decimal n))%nat ->
      forall u, unit_group u ->
      exists msg,
        AnthropicProvider._parse_model_with_thinking_tokens_call
          (name +:+ ":" +:+ decimal n +:+ unit_text u)
        = inl (mkExc ValueError msg)).
Proof.
  intros Hname.
  assert (M : forall u, unit_group u ->
            Matches (name +:+ ":" +:+ decimal n +:+ unit_text u)
                    name (decimal n) u).
  { intros u Hu.
    pose proof (Matches_intro name (decimal n) u "" Hname (decimal_digits n)
                  Hu (or_introl eq_refl)) as M.
    now rewrite append_nil_r in M. }
  split.
  - intros Hlen. split; [|split].
    + pose proof (M None (or_introl eq_refl)) as M0. simpl unit_text in M0.
      rewrite append_nil_r in M0.
      now rewrite (parse_call_match _ _ _ _ M0 Hlen), int_decimal_roundtrip.
    + pose proof (M (Some "k"%char) (or_intror (or_introl eq_refl))) as Mk.
      change (unit_text (Some "k"%char)) with "k" in Mk.
      now rewrite (parse_call_match _ _ _ _ Mk Hlen), int_decimal_roundtrip.
    + pose proof (M (Some "m"%char) (or_intror (or_intror eq_refl))) as Mm.
      change (unit_text (Some "m"%char)) with "m" in Mm.
      now rewrite (parse_call_match _ _ _ _ Mm Hlen), int_decimal_roundtrip.
  - intros Hlen u Hu. exact (parse_call_long _ _ _ _ (M u Hu) Hlen).
Qed.

Lemma X3_parse_decimal_roundtrip_witness :
  all_chars not_LF "claude-3-7-sonnet-20250219" = true
  /\ (String.length (decimal 2000) <= int_max_str_digits)%nat
  /\ AnthropicProvider._parse_model_with_thinking_tokens_call
       ("claude-3-7-sonnet-20250219" +:+ ":" +:+ decimal 2000)
     = inr ("claude-3-7-sonnet-20250219", Some 2000).
Proof.
  assert (Hlen : (String.length (decimal 2000) <= int_max_str_digits)%nat).
  { apply Nat.leb_le. vm_compute. reflexivity. }
  split; [reflexivity|]. split; [exact Hlen|].
  exact (proj1 (proj1 (X3_parse_decimal_roundtrip
                         "claude-3-7-sonnet-20250219" 2000 eq_refl) Hlen)).
Defined.

(** ** The registry and the listing script *)

Section registry_more.

Lemma prefix_map_lookup k p :
  prefix_map !! k = Some p <-> (k = Provider_value p \/ k = short_code p).
Proof.
  split.
  - unfold prefix_map. intros H.
    repeat (rewrite lookup_insert in H; case_decide;
            [subst k; injection H as <-; simpl; auto|]).
    now rewrite lookup_empty in H.
  - intros [-> | ->]; now destruct p.
Qed.

Lemma lower_value p : lower (Provider_value p) = Provider_value p.
Proof. now destruct p. Qed.

Lemma lower_short_code p : lower (short_code p) = short_code p.
Proof. now destruct p. Qed.

Lemma from_prefix_returned prefix p :
  from_prefix prefix = Returned p
  <-> (lower prefix = Provider_value p \/ lower prefix = short_code p).
Proof.
  rewrite <- prefix_map_lookup. unfold from_prefix.
  destruct (prefix_map !! lower prefix) as [q|]; split; intros H;
    try discriminate; congruence.
Qed.

End registry_more.

(** X4: [Provider.from_prefix] returns a provider exactly when the
    argument, in lower case, is that provider's value or its one-letter
    code; in particular the value and the code of every provider resolve
    back to it, and no string resolves to two providers. *)
Theorem X4_from_prefix_inverse (prefix : string) (p : Provider) :
  (from_prefix prefix = Returned p
   <-> (lower prefix = Provider_value p \/ lower prefix = short_code p))
  /\ from_prefix (Provider_value p) = Returned p
  /\ from_prefix (short_code p) = Returned p
  /\ (forall q, from_prefix prefix = Returned p ->
                from_prefix prefix = Returned q -> p = q).
Proof.
  split; [apply from_prefix_returned|]. split; [|split].
  - apply from_prefix_returned. left. apply lower_value.
  - apply from_prefix_returned. right. apply lower_short_code.
  - congruence.
Qed.

(** X5: the listing script.  When [argparse] accepts the command line,
    [main] returns 0 or 1 and raises nothing: without a provider
    argument, or with an empty one, it announces all providers; with a
    known prefix in any letter case it announces the provider's full
    lower-case value; with any other argument it prints the error naming
    the argument on the error stream, prints nothing on the output stream
    and returns 1.  When [argparse] leaves with [SystemExit], so does
    [main], with the same status and without printing anything itself. *)
Theorem X5_script_main (parse_args : ListModelsScript.ParseArgs) :
  (parse_args = ListModelsScript.Namespace None
   \/ parse_args = ListModelsScript.Namespace (Some "") ->
   ListModelsScript.main parse_args
   = (ListModelsScript.Ends (Returned 0),
      ListModelsScript.mkConsole ["Listing models for all providers:"] []))
  /\ (forall s p,
      parse_args = ListModelsScript.Namespace (Some s) -> s <> "" ->
      lower s = Provider_value p \/ lower s = short_code p ->
      ListModelsScript.main parse_args
      = (ListModelsScript.Ends (Returned 0),
         ListModelsScript.mkConsole
           ["Listing models for " +:+ Provider_value p +:+ ":"] []))
  /\ (forall s,
      parse_args = ListModelsScript.Namespace (Some s) -> s <> "" ->
      (forall p, lower s <> Provider_value p /\ lower s <> short_code p) ->
      ListModelsScript.main parse_args
      = (ListModelsScript.Ends (Returned 1),
         ListModelsScript.mkConsole []
           ["Error: Unknown provider prefix: " +:+ s]))
  /\ (forall provider,
      parse_args = ListModelsScript.Namespace provider ->
      exists code console,
        ListModelsScript.main parse_args
        = (ListModelsScript.Ends (Returned code), console)
        /\ (code = 0 \/ code = 1))
  /\ (forall status printed,
      parse_args = ListModelsScript.ParserExit status printed ->
      ListModelsScript.main parse_args
      = (ListModelsScript.SystemExit status, printed)).
Proof.
  split; [|split; [|split; [|split]]].
  - intros [-> | ->]; reflexivity.
  - intros s p -> Hs Hp. unfold ListModelsScript.main.
    destruct s; [congruence|]. simpl truthy. cbv iota.
    apply from_prefix_returned in Hp. now rewrite Hp.
  - intros s -> Hs Hnone. unfold ListModelsScript.main.
    destruct s as [|c s]; [congruence|]. simpl truthy. cbv iota.
    unfold from_prefix.
    destruct (prefix_map !! lower (String c s)) as [q|] eqn:Hq; [|reflexivity].
    apply prefix_map_lookup in Hq. destruct (Hnone q). tauto.
  - intros provider ->. unfold ListModelsScript.main.
    destruct provider as [[|c s]|]; eauto.
    simpl truthy. cbv iota. unfold from_prefix.
    destruct (prefix_map !! lower (String c s)); eauto.
  - now intros status printed ->.
Qed.

Lemma X5_script_main_witness :
  ListModelsScript.main (ListModelsScript.Namespace (Some "O"))
  = (ListModelsScript.Ends (Returned 0),
     ListModelsScript.mkConsole ["Listing models for openai:"] [])
  /\ ListModelsScript.main (ListModelsScript.Namespace (Some "mistral"))
     = (ListModelsScript.Ends (Returned 1),
        ListModelsScript.mkConsole []
          ["Error: Unknown provider prefix: mistral"])
  /\ ListModelsScript.main
       (ListModelsScript.ParserExit 2
          (ListModelsScript.mkConsole []
             ["usage: list_models.py [-h] [provider]"]))
     = (ListModelsScript.SystemExit 2,
        ListModelsScript.mkConsole []
          ["usage: list_models.py [-h] [provider]"]).
Proof.
  split; [|split].
  - apply (proj1 (proj2 (X5_script_main
                           (ListModelsScript.Namespace (Some "O"))))
             "O" OPENAI eq_refl);
      [discriminate | right; reflexivity].
  - apply (proj1 (proj2 (proj2 (X5_script_main
                                  (ListModelsScript.Namespace (Some "mistral")))))
             "mistral" eq_refl); [discriminate|].
    intros p. destruct p; split; discriminate.
  - exact (proj2 (proj2 (proj2 (proj2
             (X5_script_main
                (ListModelsScript.ParserExit 2
                   (ListModelsScript.mkConsole []
                      ["usage: list_models.py [-h] [provider]"]))))))
             2 _ eq_refl).
Defined.

(** ** The handler, branch by branch *)

Section handler_more.

Context {A : Type}.




(** Without a usable context the handler raises, whatever [generate] is. *)
Lemma anthropic_handle_no_context e rc p m w :
  has_context p m = false ->
  exists exc s,
    (forall g : string -> string -> World _ -> Outcome A * World _,
        AnthropicProvider._handle_error g e rc p m w
        = (Raised exc, mkWorld (calls w) (sleeps w ++ s)))
    /\ (length s <= 1)%nat.
Proof.
  intros Hc. unfold AnthropicProvider._handle_error.
  assert (Hw : w = mkWorld (calls w) (sleeps w ++ [])).
  { rewrite app_nil_r. now destruct w. }
  destruct p as [p|], m as [m|]; simpl in Hc; try rewrite Hc;
    repeat match goal with
           | |- context [if ?b then _ else _] => destruct b
           end;
    first [ eexists _, [_]; split; [intros g; reflexivity | simpl; lia]
          | eexists _, []; split;
            [intros g; rewrite <- Hw; reflexivity | simpl; lia] ].
Qed.

Lemma openai_handle_no_context e rc p m w :
  has_context p m = false ->
  exists exc s,
    (forall g : string -> string -> World _ -> Outcome A * World _,
        OpenAIProvider._handle_error g e rc p m w
        = (Raised exc, mkWorld (calls w) (sleeps w ++ s)))
    /\ (length s <= 1)%nat.
Proof.
  intros Hc. unfold OpenAIProvider._handle_error.
  assert (Hw : w = mkWorld (calls w) (sleeps w ++ [])).
  { rewrite app_nil_r. now destruct w. }
  destruct p as [p|], m as [m|]; simpl in Hc; try rewrite Hc;
    repeat match goal with
           | |- context [if ?b then _ else _] => destruct b
           end;
    first [ eexists _, [_]; split; [intros g; reflexivity | simpl; lia]
          | eexists _, []; split;
            [intros g; rewrite <- Hw; reflexivity | simpl; lia] ].
Qed.

Lemma gemini_handle_no_context e rc p m w :
  has_context p m = false ->
  exists exc s,
    (forall g : string -> string -> World _ -> Outcome A * World _,
        GeminiProvider._handle_error g e rc p m w
        = (Raised exc, mkWorld (calls w) (sleeps w ++ s)))
    /\ (length s <= 1)%nat.
Proof.
  intros Hc. unfold GeminiProvider._handle_error.
  assert (Hw : w = mkWorld (calls w) (sleeps w ++ [])).
  { rewrite app_nil_r. now destruct w. }
  assert (Hand : forall b p m, has_context (Some p) (Some m) = false ->
                   b && truthy p && truthy m = false).
  { intros b p' m' H. simpl in H. rewrite <- andb_assoc, H. apply andb_false_r. }
  destruct p as [p|], m as [m|]; simpl in Hc;
    try rewrite (Hand _ _ _ Hc); try rewrite Hc;
    repeat match goal with
           | |- context [if ?b then _ else _] => destruct b
           end;
    first [ eexists _, [_]; split; [intros g; reflexivity | simpl; lia]
          | eexists _, []; split;
            [intros g; rewrite <- Hw; reflexivity | simpl; lia] ].
Qed.

End handler_more.

Section handler_rate_limit.

Context {A : Type}.

Lemma anthropic_handle_rate_limit
      (g : string -> string -> World _ -> Outcome A * World _) e rc p m w :
  isinstance_RateLimitError e = true -> (rc < 3)%nat ->
  truthy p = true -> truthy m = true ->
  AnthropicProvider._handle_error g e rc (Some p) (Some m) w
  = g p m (time_sleep (2 ^ rc) w).
Proof.
  intros He Hrc Hp Hm. unfold AnthropicProvider._handle_error.
  apply Nat.ltb_lt in Hrc. now rewrite He, Hrc, Hp, Hm.
Qed.

Lemma openai_handle_rate_limit
      (g : string -> string -> World _ -> Outcome A * World _) e rc p m w :
  isinstance_RateLimitError e = true -> (rc < 3)%nat ->
  truthy p = true -> truthy m = true ->
  OpenAIProvider._handle_error g e rc (Some p) (Some m) w
  = g p m (time_sleep (2 ^ rc) w).
Proof.
  intros He Hrc Hp Hm. unfold OpenAIProvider._handle_error.
  apply Nat.ltb_lt in Hrc. now rewrite He, Hrc, Hp, Hm.
Qed.

Lemma gemini_handle_quota
      (g : string -> string -> World _ -> Outcome A * World _) e rc p m w :
  gemini_quota_text e = true -> (rc < 3)%nat ->
  truthy p = true -> truthy m = true ->
  GeminiProvider._handle_error g e rc (Some p) (Some m) w
  = g p m (time_sleep (2 ^ rc) w).
Proof.
  intros He Hrc Hp Hm. unfold GeminiProvider._handle_error.
  unfold gemini_quota_text in He.
  apply Nat.ltb_lt in Hrc. now rewrite He, Hrc, Hp, Hm.
Qed.

Lemma anthropic_handle_exhausted
      (g : string -> string -> World _ -> Outcome A * World _) e rc p m w :
  isinstance_APIError e = true -> isinstance_AuthenticationError e = false ->
  (3 <= rc)%nat ->
  AnthropicProvider._handle_error g e rc p m w
  = (Raised (ProviderError_api "Anthropic" e), w).
Proof.
  intros He Ha Hrc. unfold AnthropicProvider._handle_error.
  apply Nat.ltb_ge in Hrc. rewrite Hrc, andb_false_r. by_class e.
Qed.

Lemma openai_handle_exhausted
      (g : string -> string -> World _ -> Outcome A * World _) e rc p m w :
  isinstance_APIError e = true -> isinstance_AuthenticationError e = false ->
  (3 <= rc)%nat ->
  OpenAIProvider._handle_error g e rc p m w
  = (Raised (ProviderError_api "OpenAI" e), w).
Proof.
  intros He Ha Hrc. unfold OpenAIProvider._handle_error.
  apply Nat.ltb_ge in Hrc. rewrite Hrc, andb_false_r. by_class e.
Qed.

Lemma gemini_handle_exhausted
      (g : string -> string -> World _ -> Outcome A * World _) e rc p m w :
  gemini_auth_text e = false -> (3 <= rc)%nat ->
  GeminiProvider._handle_error g e rc p m w
  = (Raised (ProviderError_other "Google Gemini" e), w).
Proof.
  intros Ha Hrc. unfold GeminiProvider._handle_error.
  unfold gemini_auth_text in Ha.
  apply Nat.ltb_ge in Hrc. rewrite Hrc, andb_false_r, Ha. simpl.
  now destruct p, m.
Qed.

End handler_rate_limit.

(** X6: the wait before a retry.  With a usable context and a count below
    three, the handler of each adapter waits [2 ^ retry_count] time units
    after a rate-limit failure (Gemini: a message with the quota signal)
    and one time unit after any other retryable failure, and then hands
    over to [generate] with the same prompt and model. *)
Theorem X6_backoff_schedule (e : PyExc) (rc : nat) (p m : string) :
  (rc < 3)%nat -> truthy p = true -> truthy m = true ->
  (isinstance_RateLimitError e = true ->
   (forall g w,
       @AnthropicProvider._handle_error PromptResponse g e rc (Some p) (Some m) w
       = g p m (time_sleep (2 ^ rc) w))
   /\ (forall g w,
       @OpenAIProvider._handle_error PromptResponse g e rc (Some p) (Some m) w
       = g p m (time_sleep (2 ^ rc) w)))
  /\ (exc_class e = APIError ->
      (forall g w,
          @AnthropicProvider._handle_error PromptResponse g e rc (Some p) (Some m) w
          = g p m (time_sleep 1 w))
      /\ (forall g w,
          @OpenAIProvider._handle_error PromptResponse g e rc (Some p) (Some m) w
          = g p m (time_sleep 1 w)))
  /\ (gemini_quota_text e = true ->
      forall g w,
        @GeminiProvider._handle_error PromptResponse g e rc (Some p) (Some m) w
        = g p m (time_sleep (2 ^ rc) w))
  /\ (gemini_quota_text e = false -> gemini_auth_text e = false ->
      forall g w,
        @GeminiProvider._handle_error PromptResponse g e rc (Some p) (Some m) w
        = g p m (time_sleep 1 w)).
Proof.
  intros Hrc Hp Hm. repeat split; intros.
  - now apply anthropic_handle_rate_limit.
  - now apply openai_handle_rate_limit.
  - now apply anthropic_handle_api.
  - now apply openai_handle_api.
  - now apply gemini_handle_quota.
  - rewrite gemini_handle_other by assumption.
    apply Nat.ltb_lt in Hrc. now rewrite Hrc, Hp, Hm.
Qed.

Lemma X6_backoff_schedule_witness :
  (2 < 3)%nat /\ truthy "Test prompt" = true /\ truthy "gpt-4" = true
  /\ isinstance_RateLimitError rate_limited = true
  /\ sleeps (snd (@OpenAIProvider._handle_error PromptResponse
                    (fun _ _ w => (Unfinished, w)) rate_limited 2
                    (Some "Test prompt") (Some "gpt-4") w0))
     = [4%nat].
Proof.
  repeat (split; [first [reflexivity | lia]|]).
  rewrite (proj2 (proj1 (X6_backoff_schedule rate_limited 2 "Test prompt" "gpt-4"
                           (Nat.lt_succ_diag_r 2) eq_refl eq_refl) eq_refl)).
  reflexivity.
Defined.

(** X7: once the count has reached three, the handler neither waits nor
    hands over to [generate].  For the Anthropic and OpenAI adapters every
    API error other than an authentication error, rate limits included,
    becomes the [ProviderError] that carries its message; the Gemini
    adapter raises its [ProviderError] for every failure without the
    authentication signal. *)
Theorem X7_exhausted_count (e : PyExc) (rc : nat) :
  (3 <= rc)%nat ->
  (isinstance_APIError e = true -> isinstance_AuthenticationError e = false ->
   (forall g p m w,
       @AnthropicProvider._handle_error PromptResponse g e rc p m w
       = (Raised (ProviderError_api "Anthropic" e), w))
   /\ (forall g p m w,
       @OpenAIProvider._handle_error PromptResponse g e rc p m w
       = (Raised (ProviderError_api "OpenAI" e), w)))
  /\ (gemini_auth_text e = false ->
      forall g p m w,
        @GeminiProvider._handle_error PromptResponse g e rc p m w
        = (Raised (ProviderError_other "Google Gemini" e), w)).
Proof.
  intros Hrc. split.
  - intros He Ha. split; intros.
    + now apply anthropic_handle_exhausted.
    + now apply openai_handle_exhausted.
  - intros Ha g p m w. now apply gemini_handle_exhausted.
Qed.

Lemma X7_exhausted_count_witness :
  (3 <= 3)%nat
  /\ isinstance_APIError rate_limited = true
  /\ isinstance_AuthenticationError rate_limited = false
  /\ @AnthropicProvider._handle_error PromptResponse
       (fun _ _ w => (Unfinished, w)) rate_limited 3
       (Some "Test prompt") (Some "claude-2.1") w0
     = (Raised (mkExc ValueError "Anthropic API error: Rate limit exceeded"), w0).
Proof.
  repeat (split; [first [reflexivity | lia]|]).
  exact (proj1 (proj1 (X7_exhausted_count rate_limited 3 (Nat.le_refl 3))
                  eq_refl eq_refl) _ _ _ _).
Defined.

(** X8: without a usable retry context, that is when prompt or model is
    missing or empty, the handler of each adapter never hands over to
    [generate]: it raises, leaves the vendor untouched and waits at most
    once. *)
Theorem X8_no_context_no_retry (A : Type) (e : PyExc) (rc : nat)
    (p m : option string) :
  has_context p m = false ->
  (forall w, exists exc s,
      (forall g, @AnthropicProvider._handle_error A g e rc p m w
                 = (Raised exc, mkWorld (calls w) (sleeps w ++ s)))
      /\ (length s <= 1)%nat)
  /\ (forall w, exists exc s,
      (forall g, @OpenAIProvider._handle_error A g e rc p m w
                 = (Raised exc, mkWorld (calls w) (sleeps w ++ s)))
      /\ (length s <= 1)%nat)
  /\ (forall w, exists exc s,
      (forall g, @GeminiProvider._handle_error A g e rc p m w
                 = (Raised exc, mkWorld (calls w) (sleeps w ++ s)))
      /\ (length s <= 1)%nat).
Proof.
  intros Hc. split; [|split]; intros w.
  - now apply anthropic_handle_no_context.
  - now apply openai_handle_no_context.
  - now apply gemini_handle_no_context.
Qed.

Lemma X8_no_context_no_retry_witness :
  has_context None None = false
  /\ exists exc s,
      (forall g, @OpenAIProvider._handle_error (list string) g rate_limited 0
                   None None w0
                 = (Raised exc, mkWorld [] ([] ++ s)))
      /\ (length s <= 1)%nat.
Proof.
  split; [reflexivity|].
  exact (proj1 (proj2 (X8_no_context_no_retry (list string) rate_limited 0
                         None None eq_refl)) w0).
Defined.


(** ** Runs of [generate] *)

Section runs.








End runs.









Section gemini_answers.

Import GeminiProvider.


Lemma index_error_plain :
  gemini_quota_text index_error = false /\ gemini_auth_text index_error = false.
Proof. split; reflexivity. Qed.

Lemma none_attribute_plain :
  gemini_quota_text (none_has_no_attribute "total_token_count") = false
  /\ gemini_auth_text (none_has_no_attribute "total_token_count") = false.
Proof. split; reflexivity. Qed.

End gemini_answers.



(** X14: when the vendor's model listing fails, the OpenAI adapter's
    [list_models] raises after that single call and never returns a list.
    A rate-limit failure is raised again as it is, after one wait of one
    time unit; an authentication failure becomes the [AuthError], with no
    wait; any other API error becomes the [ProviderError] of an API error,
    after one wait; anything else becomes the other [ProviderError], with
    no wait. *)
Theorem X14_openai_list_models_failure (self : OpenAIProvider.t)
    (w : World OpenAIProvider.Request) (e : PyExc) :
  OpenAIProvider.client_models_list self (length (calls w)) = inl e ->
  OpenAIProvider.list_models self w
  = (Raised
       match exc_class e with
       | RateLimitError => e
       | AuthenticationError => AuthError "OpenAI" e
       | APIError => ProviderError_api "OpenAI" e
       | _ => ProviderError_other "OpenAI" e
       end,
     mkWorld (calls w ++ [OpenAIProvider.ModelsList])
       (sleeps w ++ match exc_class e with
                    | RateLimitError | APIError => [1%nat]
                    | _ => []
                    end)).
Proof.
  intros H. unfold OpenAIProvider.list_models. rewrite H.
  unfold OpenAIProvider._handle_error, record_call, time_sleep.
  destruct e as [[] msg]; simpl; rewrite ?app_nil_r; reflexivity.
Qed.

Lemma X14_openai_list_models_failure_witness :
  OpenAIProvider.client_models_list
    (OpenAIProvider.mk "test_key" (fun _ => inl rate_limited)
       (fun _ _ => inl rate_limited) (fun _ _ => inl rate_limited)) 0
  = inl rate_limited
  /\ OpenAIProvider.list_models
       (OpenAIProvider.mk "test_key" (fun _ => inl rate_limited)
          (fun _ _ => inl rate_limited) (fun _ _ => inl rate_limited)) w0
     = (Raised rate_limited, mkWorld [OpenAIProvider.ModelsList] [1%nat]).
Proof.
  split; [reflexivity|].
  exact (X14_openai_list_models_failure
           (OpenAIProvider.mk "test_key" (fun _ => inl rate_limited)
              (fun _ _ => inl rate_limited) (fun _ _ => inl rate_limited))
           w0 rate_limited eq_refl).
Defined.


(** ** The Gemini catalogue *)

Section splitting.

Lemma str_split_cons sep s : exists h r, str_split sep s = h :: r.
Proof.
  induction s as [|c s (h & r & IH)]; simpl; [eauto|].
  destruct (Ascii.eqb c sep); [eauto|]. rewrite IH. eauto.
Qed.

(** Joining what was split gives the string back. *)
Lemma str_join_split sep s : str_join sep (str_split sep s) = s.
Proof.
  induction s as [|c s IH]; [reflexivity|]. simpl.
  destruct (str_split_cons sep s) as (h & r & E). rewrite E in *.
  destruct (Ascii.eqb_spec c sep) as [->|].
  - change (str_join sep ("" :: h :: r))
      with ("" +:+ String sep (str_join sep (h :: r))).
    now rewrite IH.
  - destruct r as [|h' r]; simpl in *; [now rewrite IH|].
    rewrite append_cons. now rewrite IH.
Qed.

Lemma str_split_no_slash s :
  all_chars not_slash s = true -> str_split "/" s = [s].
Proof.
  induction s as [|c s IH]; [reflexivity|]. simpl.
  intros [Hc Hs]%andb_true_iff. unfold not_slash in Hc.
  apply negb_true_iff in Hc. now rewrite Hc, (IH Hs).
Qed.

(** The last piece of a split is what follows the last slash. *)
Lemma str_split_last s : last_segment s (List.last (str_split "/" s) "").
Proof.
  unfold last_segment. induction s as [|c s [Hid Hs]]; [simpl; auto|].
  simpl str_split. destruct (str_split_cons "/" s) as (h & r & E).
  rewrite E in *. destruct (Ascii.eqb_spec c "/"%char) as [->|Hc].
  - change (List.last ("" :: h :: r) "") with (List.last (h :: r) "").
    split; [exact Hid|]. right.
    destruct Hs as [Hs | [dir Hs]].
    + exists "". now rewrite Hs at 1.
    + exists (String "/" dir). now rewrite Hs at 1.
  - assert (Hc' : not_slash c = true).
    { unfold not_slash. now destruct (Ascii.eqb_spec c "/"%char). }
    destruct r as [|h' r].
    + simpl in *. rewrite Hc', Hid. split; [reflexivity|]. left.
      pose proof (str_join_split "/" s) as J. rewrite E in J. simpl in J.
      now rewrite J.
    + change (List.last (String c h :: h' :: r) "")
        with (List.last (h :: h' :: r) "").
      split; [exact Hid|]. right.
      destruct Hs as [Hs | [dir Hs]].
      * exfalso. rewrite Hs in E at 1.
        now rewrite (str_split_no_slash _ Hid) in E.
      * exists (String c dir). now rewrite Hs at 1.
Qed.

Lemma existsb_generate methods :
  existsb (String.eqb "generateContent") methods = true
  <-> In "generateContent" methods.
Proof.
  rewrite existsb_exists. split.
  - intros (x & Hin & ->%String.eqb_eq). exact Hin.
  - intros Hin. exists "generateContent". split; [exact Hin|].
    apply String.eqb_refl.
Qed.

End splitting.

(** X15: the Gemini adapter's [list_models].  When the vendor's listing
    succeeds, the result holds, in the vendor's order and without sorting,
    one name for each catalogue entry that lists the method
    [generateContent], and none for the others; each name is the part of
    the entry's name after its last slash (the whole name when it has no
    slash) and so contains no slash.  Nothing is logged and nothing waits.
    When the listing fails, [list_models] raises and returns no list. *)
Theorem X15_gemini_list_models (self : GeminiProvider.t)
    (w : World GeminiProvider.Request) :
  (forall models, exists ids,
      GeminiProvider.list_models (inr models) self w = (Returned ids, w)
      /\ Forall2 (fun m id => last_segment (GeminiProvider.name m) id)
           (List.filter
              (fun m => existsb (String.eqb "generateContent")
                                (GeminiProvider.supported_generation_methods m))
              models)
           ids
      /\ (forall m,
             In m (List.filter
                     (fun m => existsb (String.eqb "generateContent")
                                 (GeminiProvider.supported_generation_methods m))
                     models)
             <-> In m models /\ generates_content m))
  /\ (forall e, exists exc s,
      GeminiProvider.list_models (inl e) self w
      = (Raised exc, mkWorld (calls w) (sleeps w ++ s))
      /\ (length s <= 1)%nat).
Proof.
  split.
  - intros models. eexists. split; [reflexivity|]. split.
    + induction (List.filter _ models) as [|m l IH]; simpl; constructor;
        [apply str_split_last | exact IH].
    + intros m. rewrite filter_In, existsb_generate. reflexivity.
  - intros e. unfold GeminiProvider.list_models.
    destruct (gemini_handle_no_context (A:=list string) e 0 None None w eq_refl)
      as (exc & s & E & Hs).
    exists exc, s. split; [apply E | exact Hs].
Qed.

Lemma X15_gemini_list_models_witness :
  GeminiProvider.list_models (inr gemini_catalogue)
    (gemini_scripted [] (gemini_ok "")) w0
  = (Returned ["gemini-pro"; "gemini-ultra"], w0).
Proof.
  destruct (proj1 (X15_gemini_list_models (gemini_scripted [] (gemini_ok "")) w0)
              gemini_catalogue) as (ids & E & _).
  rewrite E. vm_compute in E. now injection E as <-.
Defined.

(** ** Construction *)

(** X16: each adapter is built from its own environment variable alone.
    Setting that variable to a non-empty key makes the construction
    succeed with exactly that key held, whatever else the environment
    holds; removing it, or setting it to the empty string, makes the
    construction fail with the [ValueError] that names the variable; and
    removing the Anthropic variable leaves the construction of the OpenAI
    and the Gemini adapter as it was (likewise for the other two). *)
Theorem X16_construction (environ : gmap string string) :
  (forall key sdk, key <> "" ->
      AnthropicProvider.__init__ (<["ANTHROPIC_API_KEY" := key]> environ) sdk
      = Returned (AnthropicProvider.mk key (sdk key)))
  /\ (forall key l c k, key <> "" ->
      OpenAIProvider.__init__ (<["OPENAI_API_KEY" := key]> environ) l c k
      = Returned (OpenAIProvider.mk key (l key) (c key) (k key)))
  /\ (forall key sdk, key <> "" ->
      GeminiProvider.__init__ (<["GEMINI_API_KEY" := key]> environ) sdk
      = Returned (GeminiProvider.mk key (sdk key)))
  /\ (forall env', env' = delete "ANTHROPIC_API_KEY" environ
                   \/ env' = <["ANTHROPIC_API_KEY" := ""]> environ ->
      (forall sdk,
          AnthropicProvider.__init__ env' sdk
          = Raised (mkExc ValueError
                      "ANTHROPIC_API_KEY environment variable not set"))
      /\ (forall l c k, OpenAIProvider.__init__ env' l c k
                        = OpenAIProvider.__init__ environ l c k)
      /\ (forall sdk, GeminiProvider.__init__ env' sdk
                      = GeminiProvider.__init__ environ sdk))
  /\ (forall env', env' = delete "OPENAI_API_KEY" environ
                   \/ env' = <["OPENAI_API_KEY" := ""]> environ ->
      (forall l c k,
          OpenAIProvider.__init__ env' l c k
          = Raised (mkExc ValueError
                      "OPENAI_API_KEY environment variable not set"))
      /\ (forall sdk, AnthropicProvider.__init__ env' sdk
                      = AnthropicProvider.__init__ environ sdk)
      /\ (forall sdk, GeminiProvider.__init__ env' sdk
                      = GeminiProvider.__init__ environ sdk))
  /\ (forall env', env' = delete "GEMINI_API_KEY" environ
                   \/ env' = <["GEMINI_API_KEY" := ""]> environ ->
      (forall sdk,
          GeminiProvider.__init__ env' sdk
          = Raised (mkExc ValueError
                      "GEMINI_API_KEY environment variable not set"))
      /\ (forall sdk, AnthropicProvider.__init__ env' sdk
                      = AnthropicProvider.__init__ environ sdk)
      /\ (forall l c k, OpenAIProvider.__init__ env' l c k
                        = OpenAIProvider.__init__ environ l c k)).
Proof.
  assert (Ht : forall key, key <> "" -> truthy key = true).
  { intros [|c key]; [congruence | reflexivity]. }
  unfold AnthropicProvider.__init__, OpenAIProvider.__init__,
    GeminiProvider.__init__, os_getenv.
  repeat split; intros;
    repeat match goal with
           | H : _ \/ _ |- _ => destruct H as [-> | ->]
           end;
    rewrite ?lookup_insert_eq, ?lookup_delete_eq,
      ?lookup_insert_ne, ?lookup_delete_ne by discriminate;
    rewrite ?Ht by assumption; reflexivity.
Qed.

Lemma X16_construction_witness :
  AnthropicProvider.__init__ full_environ (fun _ _ _ => inl server_error)
  = Returned (AnthropicProvider.mk "sk-ant" (fun _ _ => inl server_error))
  /\ AnthropicProvider.__init__ (delete "ANTHROPIC_API_KEY" full_environ)
       (fun _ _ _ => inl server_error)
     = Raised (mkExc ValueError "ANTHROPIC_API_KEY environment variable not set")
  /\ GeminiProvider.__init__ (delete "ANTHROPIC_API_KEY" full_environ)
       (fun _ _ _ => inl server_error)
     = Returned (GeminiProvider.mk "g-key" (fun _ _ => inl server_error)).
Proof.
  split; [|split].
  - apply (proj1 (X16_construction _) "sk-ant" (fun _ _ _ => inl server_error)).
    discriminate.
  - apply (proj1 (proj2 (proj2 (proj2 (X16_construction full_environ)))) _
             (or_introl eq_refl)).
  - rewrite (proj2 (proj2 (proj1 (proj2 (proj2 (proj2
               (X16_construction full_environ)))) _ (or_introl eq_refl)))).
    reflexivity.
Defined.

(** ** The two OpenAI endpoints *)

Section endpoints.

Import OpenAIProvider.

Lemma openai_handle_ext {A}
      (g g' : string -> string -> World Request -> Outcome A * World Request)
      e rc p m w :
  (forall w', g p m w' = g' p m w') ->
  _handle_error g e rc (Some p) (Some m) w
  = _handle_error g' e rc (Some p) (Some m) w.
Proof.
  intros H. unfold _handle_error.
  repeat match goal with
         | |- context [if ?b then _ else _] => destruct b
         end; auto.
Qed.

Lemma openai_generate_ext self self' prompt model_ :
  (forall n r, openai_client self model_ n r = openai_client self' model_ n r) ->
  forall fuel w,
    generate self fuel prompt model_ w = generate self' fuel prompt model_ w.
Proof.
  intros H. induction fuel as [|fuel IH]; intros w; [reflexivity|].
  rewrite !openai_generate_S. unfold openai_attempt. rewrite H.
  cbv zeta.
  destruct (openai_client self' model_ _ _) as [e|response];
    [now apply openai_handle_ext|].
  destruct (completion_tokens response); [now apply openai_handle_ext|].
  destruct (choices response); [now apply openai_handle_ext | reflexivity].
Qed.

End endpoints.

(** X17: the OpenAI adapter uses one endpoint per model name.  For a model
    name that starts with [gpt-] every request is a chat completion and
    the outcome of [generate] does not depend on the text-completion
    endpoint at all; for any other model name every request is a text
    completion and the outcome does not depend on the chat endpoint. *)
Theorem X17_openai_endpoint (prompt model_ : string) (fuel : nat)
    (self self' : OpenAIProvider.t) (w : World OpenAIProvider.Request) :
  (startswith model_ "gpt-" = true ->
   (forall n r, OpenAIProvider.client_chat_completions_create self n r
                = OpenAIProvider.client_chat_completions_create self' n r) ->
   OpenAIProvider.generate self fuel prompt model_ w
   = OpenAIProvider.generate self' fuel prompt model_ w
   /\ exists k,
       calls (snd (OpenAIProvider.generate self fuel prompt model_ w))
       = (calls w
          ++ repeat (OpenAIProvider.ChatCompletionsCreate model_
                       [("user", prompt)] (7 # 10)%Q 1024) k)%list)
  /\ (startswith model_ "gpt-" = false ->
      (forall n r, OpenAIProvider.client_completions_create self n r
                   = OpenAIProvider.client_completions_create self' n r) ->
      OpenAIProvider.generate self fuel prompt model_ w
      = OpenAIProvider.generate self' fuel prompt model_ w
      /\ exists k,
          calls (snd (OpenAIProvider.generate self fuel prompt model_ w))
          = (calls w
             ++ repeat (OpenAIProvider.CompletionsCreate model_ prompt
                          (7 # 10)%Q 1024) k)%list).
Proof.
  split; intros Hm H; (split; [apply openai_generate_ext | ]).
  - intros n r. unfold openai_client. now rewrite Hm.
  - destruct (openai_generate_calls self fuel prompt model_ w) as [k Hk].
    exists k. rewrite Hk. unfold openai_request. now rewrite Hm.
  - intros n r. unfold openai_client. now rewrite Hm.
  - destruct (openai_generate_calls self fuel prompt model_ w) as [k Hk].
    exists k. rewrite Hk. unfold openai_request. now rewrite Hm.
Qed.

Lemma X17_openai_endpoint_witness :
  startswith "gpt-4" "gpt-" = true
  /\ OpenAIProvider.generate
       (OpenAIProvider.mk "test_key" (fun _ => inr [])
          (fun _ _ => openai_ok "chat") (fun _ _ => inl server_error))
       3 "Test prompt" "gpt-4" w0
     = OpenAIProvider.generate
         (OpenAIProvider.mk "test_key" (fun _ => inr [])
            (fun _ _ => openai_ok "chat") (fun _ _ => openai_ok "text"))
         3 "Test prompt" "gpt-4" w0.
Proof.
  split; [reflexivity|].
  exact (proj1 (proj1 (X17_openai_endpoint "Test prompt" "gpt-4" 3
                         (OpenAIProvider.mk "test_key" (fun _ => inr [])
                            (fun _ _ => openai_ok "chat")
                            (fun _ _ => inl server_error))
                         (OpenAIProvider.mk "test_key" (fun _ => inr [])
                            (fun _ _ => openai_ok "chat")
                            (fun _ _ => openai_ok "text"))
                         w0)
                  eq_refl (fun _ _ => eq_refl))).
Defined.
